(** * jobspy_bridge.py: the command-line bridge to the job-search library

    A shallow embedding of [src/jobspy_bridge.py] and the properties of its
    input/output contract.

    The script reads up to three positional arguments, calls the external
    [scrape_jobs] once, projects seven fields of every returned row to
    strings (the description cut to 300 characters), and prints the list as
    JSON on standard output; an [Exception] raised inside the [try] block is
    printed as a JSON object on standard error, followed by [sys.exit(1)].

    What belongs to the interpreter or to the libraries rather than to the
    script is modelled as follows.
    - A Python [str] is a list of Unicode code points.
    - The builtin [int] and the external [scrape_jobs] are parameters of the
      development (Section variables): every theorem holds whatever they
      answer.  [int_ascii] is an instance of [int] used to run examples.
    - A row of the returned table (a pandas Series) is a finite map from
      column labels to cell values; a cell value is known by the text
      [str()] gives for it.
    - [json.dumps] is modelled, with its default settings, on the values the
      script passes to it: strings, lists, and dicts with string keys.  A
      separate reader of JSON texts states that what it writes is JSON.
    - The script is given twice.  In [script] the conversion of a cell, the
      iteration over the rows and the writes to the streams do not fail;
      the properties of the values passed and emitted are stated on it.  In
      [Fallible.script] each of the three can fail, as a further parameter:
      [str()] of a cell may raise, the iteration may raise after some rows,
      a write may take part of its text and raise.  The properties of what
      reaches the streams and of the way a run ends are stated on it.
      [run_when_nothing_fails] relates the two. *)

From Stdlib Require Import ZArith NArith Ascii String DecimalString List.
From stdpp Require Import base option list gmap strings.

Local Open Scope string_scope.
Local Open Scope N_scope.
Local Arguments String.append !_ _ / : simpl nomatch.

(** ** Python strings *)

(** A Python [str]: its code points, in order. *)
Abbreviation pystr := (list N).

(** The [str] whose characters are those of an ASCII literal. *)
Definition u (s : string) : pystr :=
  (λ a, N_of_ascii a) <$> list_ascii_of_string s.

(** ** Text written to the standard streams

    [json.dumps] escapes everything outside printable ASCII, so the text the
    script prints is a string of ASCII characters. *)

Definition dquote : ascii := "034"%char.
Definition newline : ascii := "010"%char.

Definition char (a : ascii) : string := String a EmptyString.

(** Expected texts are written with an apostrophe where the text has a
    double quote; [lit] puts the double quotes back. *)
Definition lit (s : string) : string :=
  string_of_list_ascii
    ((λ a, if Ascii.eqb a "'"%char then dquote else a) <$> list_ascii_of_string s).

(** ** Cell values and [str()] *)

(** The objects found in the cells of the result table.  The script only
    ever applies [str()] to a cell, so an object of any other type is given
    by the text [str()] returns for it ([VObj]): a date, a float, ... *)
Inductive pyval :=
| VStr (s : pystr)
| VNone
| VNaN
| VBool (b : bool)
| VInt (z : Z)
| VObj (shown : pystr).

Definition str (v : pyval) : pystr :=
  match v with
  | VStr s => s
  | VNone => u "None"
  | VNaN => u "nan"
  | VBool true => u "True"
  | VBool false => u "False"
  | VInt z => u (NilZero.string_of_int (Z.to_int z))
  | VObj shown => shown
  end.

(** ** Rows and tables *)

(** [job.get(key, default)] on a row: the cell under [key] when the row has
    that label, [default] otherwise. *)
Definition get (job : gmap pystr pyval) (key : pystr) (default : pyval) : pyval :=
  match job !! key with
  | Some v => v
  | None => default
  end.

(** The table returned by [scrape_jobs]: its rows, in the order in which
    [iterrows()] yields them. *)
Abbreviation DataFrame := (list (gmap pystr pyval)).

Definition iterrows (jobs : DataFrame) : list (gmap pystr pyval) := jobs.

(** ** The values handed to [json.dumps] *)

(** Strings, lists, and dicts with string keys; a dict keeps its items in
    insertion order, which is the order in which they are serialised. *)
#[warnings="-register-all"]
Inductive json :=
| JStr (s : pystr)
| JList (l : list json)
| JDict (items : list (pystr * json)).

(** *** Encoding of a string ([ensure_ascii=True]) *)

Definition hex_digit (n : N) : ascii :=
  match n with
  | 0 => "0" | 1 => "1" | 2 => "2" | 3 => "3" | 4 => "4" | 5 => "5"
  | 6 => "6" | 7 => "7" | 8 => "8" | 9 => "9" | 10 => "a" | 11 => "b"
  | 12 => "c" | 13 => "d" | 14 => "e" | _ => "f"
  end%char.

(** ['{0:04x}'.format(n)] for [n < 0x10000]. *)
Definition hex4 (n : N) : string :=
  string_of_list_ascii
    [ hex_digit (N.land (N.shiftr n 12) 15); hex_digit (N.land (N.shiftr n 8) 15);
      hex_digit (N.land (N.shiftr n 4) 15); hex_digit (N.land n 15) ].

Definition backslash_u (n : N) : string := "\u" ++ hex4 n.

(** The replacement of one character: the short escapes of [ESCAPE_DCT],
    printable ASCII unchanged, [\uXXXX] for the rest of the basic plane and
    a surrogate pair above it. *)
Definition escape (c : N) : string :=
  if c =? 34 then "\" ++ char dquote
  else if c =? 92 then "\\"
  else if c =? 10 then "\n"
  else if c =? 13 then "\r"
  else if c =? 9 then "\t"
  else if c =? 12 then "\f"
  else if c =? 8 then "\b"
  else if (32 <=? c) && (c <=? 126) then char (ascii_of_N c)
  else if c <? 65536 then backslash_u c
  else
    let n := c - 65536 in
    let s1 := N.lor 55296 (N.land (N.shiftr n 10) 1023) in
    let s2 := N.lor 56320 (N.land n 1023) in
    backslash_u s1 ++ backslash_u s2.

Definition encode_basestring_ascii (s : pystr) : string :=
  char dquote ++ String.concat EmptyString (escape <$> s) ++ char dquote.

(** *** [json.dumps] with the default separators [", "] and [": "] *)

Fixpoint dumps (v : json) : string :=
  match v with
  | JStr s => encode_basestring_ascii s
  | JList l => "[" ++ String.concat ", " (map dumps l) ++ "]"
  | JDict items =>
      "{" ++ String.concat ", "
               (map (λ kv, encode_basestring_ascii (fst kv) ++ ": " ++ dumps (snd kv)) items)
          ++ "}"
  end.

(** ** Reading a JSON text back

    A reader for the JSON texts (RFC 8259) built from strings, arrays and
    objects, the values the script serialises; it answers what is left of
    the text after one value.  It is used to state that what the script
    prints is JSON, independently of how [dumps] builds it. *)

Definition is_ws (a : ascii) : bool :=
  Ascii.eqb a " " || Ascii.eqb a "009" || Ascii.eqb a "010" || Ascii.eqb a "013".

Fixpoint skip_ws (s : string) : string :=
  match s with
  | String a t => if is_ws a then skip_ws t else s
  | EmptyString => s
  end.

Definition is_hex (a : ascii) : bool :=
  let n := N_of_ascii a in
  (48 <=? n) && (n <=? 57) || (97 <=? n) && (n <=? 102) || (65 <=? n) && (n <=? 70).

(** A character that may stand for itself inside a string (ASCII only). *)
Definition is_unescaped (a : ascii) : bool :=
  let n := N_of_ascii a in
  (32 <=? n) && (n <=? 127) && negb (n =? 34) && negb (n =? 92).

Definition is_short_escape (a : ascii) : bool :=
  existsb (Ascii.eqb a) [dquote; "\"; "/"; "b"; "f"; "n"; "r"; "t"]%char.

(** The characters of a string after its opening quote, up to and including
    the closing quote. *)
Fixpoint read_chars (s : string) : option string :=
  match s with
  | EmptyString => None
  | String a t =>
      if Ascii.eqb a dquote then Some t
      else if Ascii.eqb a "\" then
        match t with
        | String b t' =>
            if is_short_escape b then read_chars t'
            else if Ascii.eqb b "u" then
              match t' with
              | String h1 (String h2 (String h3 (String h4 t''))) =>
                  if is_hex h1 && is_hex h2 && is_hex h3 && is_hex h4
                  then read_chars t'' else None
              | _ => None
              end
            else None
        | EmptyString => None
        end
      else if is_unescaped a then read_chars t
      else None
  end.

(** One value; the elements of an array after its opening bracket; the
    members of an object after its opening brace. *)
Fixpoint read_value (fuel : nat) (s : string) : option string :=
  match fuel with
  | O => None
  | S n =>
      match skip_ws s with
      | String a t =>
          if Ascii.eqb a dquote then read_chars t
          else if Ascii.eqb a "[" then
            match skip_ws t with
            | String "]" r => Some r
            | t' => read_elements n t'
            end
          else if Ascii.eqb a "{" then
            match skip_ws t with
            | String "}" r => Some r
            | t' => read_members n t'
            end
          else None
      | EmptyString => None
      end
  end
with read_elements (fuel : nat) (s : string) : option string :=
  match fuel with
  | O => None
  | S n =>
      match read_value n s with
      | Some r =>
          match skip_ws r with
          | String "," r' => read_elements n r'
          | String "]" r' => Some r'
          | _ => None
          end
      | None => None
      end
  end
with read_members (fuel : nat) (s : string) : option string :=
  match fuel with
  | O => None
  | S n =>
      match skip_ws s with
      | String a t =>
          if Ascii.eqb a dquote then
            match read_chars t with
            | Some r =>
                match skip_ws r with
                | String ":" r' =>
                    match read_value n r' with
                    | Some r'' =>
                        match skip_ws r'' with
                        | String "," r3 => read_members n r3
                        | String "}" r3 => Some r3
                        | _ => None
                        end
                    | None => None
                    end
                | _ => None
                end
            | None => None
            end
          else None
      | EmptyString => None
      end
  end.

(** The whole text is one JSON value, white space around it allowed. *)
Definition is_json (s : string) : bool :=
  match read_value (String.length s) s with
  | Some r => match skip_ws r with EmptyString => true | _ => false end
  | None => false
  end.

Definition is_json_array (s : string) : bool :=
  match skip_ws s with
  | String "[" _ => is_json s
  | _ => false
  end.

Definition is_json_object (s : string) : bool :=
  match skip_ws s with
  | String "{" _ => is_json s
  | _ => false
  end.

(** The reader reads the text of [v] back in full, given fuel for its
    length. *)
Definition reads_back (v : json) : Prop :=
  ∀ fuel rest, (String.length (dumps v) ≤ fuel)%nat →
    read_value fuel (dumps v ++ rest) = Some rest.

(** The text of one item of a dict. *)
Definition member_text (kv : pystr * json) : string :=
  encode_basestring_ascii kv.1 ++ ": " ++ dumps kv.2.

(** ** The projection of a row *)

(** The dict appended to [results] for one row. *)
Definition listing (job : gmap pystr pyval) : json :=
  JDict
    [ (u "title", JStr (str (get job (u "title") (VStr []))));
      (u "company", JStr (str (get job (u "company_name") (VStr []))));
      (u "city", JStr (str (get job (u "city") (VStr []))));
      (u "state", JStr (str (get job (u "state") (VStr []))));
      (u "date_posted", JStr (str (get job (u "date_posted") (VStr []))));
      (u "job_url", JStr (str (get job (u "job_url") (VStr []))));
      (u "description", JStr (take 300 (str (get job (u "description") (VStr []))))) ].

(** ** Reading the emitted values *)

(** The seven keys of an emitted dict, each with the column it is read
    from. *)
Definition fields : list (pystr * pystr) :=
  [ (u "title", u "title"); (u "company", u "company_name"); (u "city", u "city");
    (u "state", u "state"); (u "date_posted", u "date_posted");
    (u "job_url", u "job_url"); (u "description", u "description") ].

(** [d[key]] on a dict; [None] when [d] has no such key. *)
Definition item (d : json) (key : pystr) : option json :=
  match d with
  | JDict items => snd <$> List.find (λ kv, bool_decide (kv.1 = key)) items
  | _ => None
  end.

Definition is_str (v : json) : bool :=
  match v with
  | JStr _ => true
  | _ => false
  end.

(** A dict whose keys are exactly the seven output keys, each with a string
    for its value. *)
Definition is_listing (v : json) : bool :=
  match v with
  | JDict items => bool_decide (items.*1 = fields.*1) && forallb (λ kv, is_str kv.2) items
  | _ => false
  end.

(** ** Exceptions *)

(** The class of a raised exception, as far as the script can tell classes
    apart: [Exception] stands for any other subclass of [Exception], and
    [BaseException] for what [except Exception] lets through
    ([KeyboardInterrupt], [SystemExit], ...). *)
Inductive exc_class := IndexError | ValueError | Exception | BaseException.

(** An exception object: its class and the text [str(e)] returns. *)
Record exception := Exc { exc_class_of : exc_class; exc_str : pystr }.

Definition isinstance_Exception (e : exception) : bool :=
  match exc_class_of e with
  | BaseException => false
  | _ => true
  end.

(** The dict the handler prints for a caught exception. *)
Definition error_object (e : exception) : json := JDict [(u "error", JStr (exc_str e))].

(** What a call into the interpreter or into a library does. *)
Inductive outcome (A : Type) :=
| Returns (a : A)
| Raises (e : exception).
Arguments Returns {A} a.
Arguments Raises {A} e.

(** ** The external search capability *)

(** The keyword arguments of [scrape_jobs]. *)
Record scrape_args := ScrapeArgs {
  site_name : list pystr;
  search_term : pystr;
  location : pystr;
  results_wanted : Z;
  hours_old : Z;
  country_indeed : pystr
}.

(** ** The process: streams, calls, control *)

(** What the process has done so far: the text the script printed on each
    stream and the calls it made to [scrape_jobs], oldest first. *)
Record world := World {
  stdout : string;
  stderr : string;
  calls : list scrape_args
}.

Definition start : world := World EmptyString EmptyString [].

(** How a piece of the script ends: with a value, with a raised exception,
    or in [sys.exit(code)]. *)
Inductive result (A : Type) :=
| Val (a : A)
| Raise (e : exception)
| SystemExit (code : Z).
Arguments Val {A} a.
Arguments Raise {A} e.
Arguments SystemExit {A} code.

Definition M (A : Type) : Type := world → result A * world.

#[export] Instance M_ret : MRet M := λ A a w, (Val a, w).

#[export] Instance M_bind : MBind M := λ A B f m w,
  match m w with
  | (Val a, w') => f a w'
  | (Raise e, w') => (Raise e, w')
  | (SystemExit code, w') => (SystemExit code, w')
  end.

Definition lift {A} (o : outcome A) : M A := λ w,
  match o with
  | Returns a => (Val a, w)
  | Raises e => (Raise e, w)
  end.

(** [l[i]] on a list. *)
Definition index {A} (l : list A) (i : nat) : M A :=
  match l !! i with
  | Some x => mret x
  | None => lift (Raises (Exc IndexError (u "list index out of range")))
  end.

(** [print(text)] and [print(text, file=sys.stderr)]. *)
Definition print (text : string) : M unit := λ w,
  (Val (), World (stdout w ++ text ++ char newline) (stderr w) (calls w)).

Definition print_stderr (text : string) : M unit := λ w,
  (Val (), World (stdout w) (stderr w ++ text ++ char newline) (calls w)).

Definition sys_exit (code : Z) : M unit := λ w, (SystemExit code, w).

(** [try: body except Exception as e: handler e]. *)
Definition try_except_Exception {A} (body : M A) (handler : exception → M A) : M A := λ w,
  match body w with
  | (Raise e, w') => if isinstance_Exception e then handler e w' else (Raise e, w')
  | r => r
  end.

(** [for x in xs: acc = body acc x], for a body that may raise. *)
Fixpoint for_each {A B} (xs : list A) (acc : B) (body : B → A → M B) : M B :=
  match xs with
  | [] => mret acc
  | x :: xs' => acc' ← body acc x; for_each xs' acc' body
  end.

(** How the process ends: an exit status, or an exception nobody caught.
    The interpreter reports an uncaught exception as it does for its class
    (for an [Exception], a traceback on standard error and exit status 1);
    [stdout] and [stderr] hold what the script itself printed. *)
Inductive status :=
| Exited (code : Z)
| Uncaught (e : exception).

Section Script.

(** The builtin [int] on a [str], and the external [scrape_jobs]. *)
Variable int : pystr → outcome Z.
Variable scrape_jobs : scrape_args → outcome DataFrame.

(** A call to [scrape_jobs], recorded in [calls]. *)
Definition call_scrape_jobs (a : scrape_args) : M DataFrame := λ w,
  lift (scrape_jobs a) (World (stdout w) (stderr w) (calls w ++ [a])%list).

(** The script, statement by statement. *)
Definition script (argv : list pystr) : M unit :=
  search_term ← index argv 1;
  location ← (if (2 <? length argv)%nat then index argv 2
              else mret (u "United States"));
  hours_old ← (if (3 <? length argv)%nat then index argv 3 ≫= λ s, lift (int s)
               else mret 24%Z);
  try_except_Exception
    (jobs ← call_scrape_jobs
              (ScrapeArgs [u "indeed"] search_term location 50 hours_old (u "USA"));
     results ← for_each (iterrows jobs) []
                 (λ results job, mret (results ++ [listing job])%list);
     print (dumps (JList results)))
    (λ e,
       print_stderr (dumps (JDict [(u "error", JStr (exc_str e))]));;
       sys_exit 1).

(** One run of the process on [sys.argv = argv]. *)
Definition run (argv : list pystr) : status * world :=
  match script argv start with
  | (Val _, w) => (Exited 0, w)
  | (SystemExit code, w) => (Exited code, w)
  | (Raise e, w) => (Uncaught e, w)
  end.

End Script.

(** ** An instance of [int]: ASCII decimal literals

    What CPython's [int] answers on a [str] of ASCII characters: white space
    around the literal is dropped, a sign may come first, and the digits may
    be separated by single underscores.  (The interpreter also accepts the
    decimal digits and spaces of other scripts, and refuses literals longer
    than its digit limit; the theorems do not depend on this instance.) *)

Definition is_space (c : N) : bool :=
  ((9 <=? c) && (c <=? 13)) || (c =? 32).

Definition digit_value (c : N) : option Z :=
  if (48 <=? c) && (c <=? 57) then Some (Z.of_N (c - 48)) else None.

Fixpoint lstrip (s : pystr) : pystr :=
  match s with
  | c :: s' => if is_space c then lstrip s' else s
  | [] => []
  end.

Definition strip (s : pystr) : pystr := rev (lstrip (rev (lstrip s))).

(** The digits after the first one, [acc] being the value read so far. *)
Fixpoint more_digits (s : pystr) (acc : Z) : option Z :=
  match s with
  | [] => Some acc
  | c :: s' =>
      if c =? 95 then
        match s' with
        | d :: s'' =>
            match digit_value d with
            | Some v => more_digits s'' (10 * acc + v)
            | None => None
            end
        | [] => None
        end
      else
        match digit_value c with
        | Some v => more_digits s' (10 * acc + v)
        | None => None
        end
  end.

Definition unsigned_literal (s : pystr) : option Z :=
  match s with
  | c :: s' =>
      match digit_value c with
      | Some v => more_digits s' v
      | None => None
      end
  | [] => None
  end.

Definition int_literal (s : pystr) : option Z :=
  match strip s with
  | 43 :: t => unsigned_literal t
  | 45 :: t => Z.opp <$> unsigned_literal t
  | t => unsigned_literal t
  end.

(** [repr(s)] for a [str] of ASCII characters. *)
Definition hex2 (n : N) : pystr :=
  [N_of_ascii (hex_digit (N.land (N.shiftr n 4) 15)); N_of_ascii (hex_digit (N.land n 15))].

Definition repr_char (quote c : N) : pystr :=
  if (c =? quote) || (c =? 92) then [92; c]
  else if c =? 9 then u "\t"
  else if c =? 10 then u "\n"
  else if c =? 13 then u "\r"
  else if (c <? 32) || (c =? 127) then (u "\x" ++ hex2 c)%list
  else [c].

Definition repr (s : pystr) : pystr :=
  let quote := if bool_decide (39 ∈ s) && negb (bool_decide (34 ∈ s)) then 34 else 39 in
  (quote :: concat (repr_char quote <$> s) ++ [quote])%list.

Definition int_ascii (s : pystr) : outcome Z :=
  match int_literal s with
  | Some z => Returns z
  | None =>
      Raises (Exc ValueError
                (u "invalid literal for int() with base 10: " ++ take 200 (repr s))%list)
  end.

(** ** Sample inputs *)

(** The script's name, as [sys.argv[0]]. *)
Definition prog : pystr := u "jobspy_bridge.py".

(** The row of the specification's example. *)
Definition engineer_row : gmap pystr pyval :=
  <[u "title" := VStr (u "Engineer")]>
  (<[u "company_name" := VStr (u "Acme")]>
  (<[u "city" := VStr (u "Springfield")]>
  (<[u "state" := VStr (u "IL")]>
  (<[u "date_posted" := VStr (u "2024-01-01")]>
  (<[u "job_url" := VStr (u "http://x")]>
  (<[u "description" := VStr (repeat 65 500)]> ∅)))))).

(** The array the specification expects for it. *)
Definition engineer_output : json :=
  JList [ JDict [ (u "title", JStr (u "Engineer")); (u "company", JStr (u "Acme"));
                  (u "city", JStr (u "Springfield")); (u "state", JStr (u "IL"));
                  (u "date_posted", JStr (u "2024-01-01")); (u "job_url", JStr (u "http://x"));
                  (u "description", JStr (repeat 65 300)) ] ].

(** A row with a null title and no other column. *)
Definition null_title_row : gmap pystr pyval := <[u "title" := VNone]> ∅.

(** A capability that answers every call with the same table, and one that
    always fails. *)
Definition returning (jobs : DataFrame) : scrape_args → outcome DataFrame := λ _, Returns jobs.
Definition raising (e : exception) : scrape_args → outcome DataFrame := λ _, Raises e.

Definition rate_limited : exception := Exc Exception (u "rate limited").

(** Command lines: all three arguments, the search term alone, and a third
    argument that is not a number. *)
Definition full_argv : list pystr := [prog; u "software engineer"; u "Austin, TX"; u "48"].
Definition short_argv : list pystr := [prog; u "software engineer"].
Definition abc_argv : list pystr := [prog; u "software engineer"; u "Austin, TX"; u "abc"].

(** The calls the first two lead to. *)
Definition full_call : scrape_args :=
  ScrapeArgs [u "indeed"] (u "software engineer") (u "Austin, TX") 50 48 (u "USA").
Definition short_call : scrape_args :=
  ScrapeArgs [u "indeed"] (u "software engineer") (u "United States") 50 24 (u "USA").

(** ** The two outcomes of the all-or-nothing contract *)



(** ** Columns read, and the shape of the printed text *)

#[export] Instance pyval_eq_dec : EqDecision pyval.
Proof. solve_decision. Defined.

(** The columns the script reads from a row. *)
Definition columns : list pystr := fields.*2.

(** Two rows with the same cells under the columns the script reads. *)
Definition same_columns (job job' : gmap pystr pyval) : bool :=
  forallb (λ col, bool_decide (job !! col = job' !! col)) columns.

Definition is_printable (a : ascii) : bool :=
  let n := N_of_ascii a in (32 <=? n) && (n <=? 126).

Fixpoint all_printable (s : string) : bool :=
  match s with
  | EmptyString => true
  | String a t => is_printable a && all_printable t
  end.

(** One line of text: printable ASCII characters, then the newline that
    ends it, and nothing after. *)
Fixpoint is_one_line (s : string) : bool :=
  match s with
  | EmptyString => false
  | String a EmptyString => Ascii.eqb a newline
  | String a t => is_printable a && is_one_line t
  end.

(** ** Reading a printed string back

    The characters of a JSON string after its opening quote, decoded as a
    JSON reader decodes them (a pair of surrogate escapes is one character),
    with what follows the closing quote.  It serves to show that the text
    [dumps] writes determines the value. *)

(** A code point that is a Unicode scalar value: below 0x110000 and not a
    surrogate. *)
Definition is_scalar (c : N) : bool :=
  ((c <? 55296) || (57344 <=? c)) && (c <? 1114112).

Fixpoint is_scalar_json (v : json) : bool :=
  match v with
  | JStr s => forallb is_scalar s
  | JList l => forallb is_scalar_json l
  | JDict items => forallb (λ kv, forallb is_scalar (fst kv) && is_scalar_json (snd kv)) items
  end.

Definition unhex (a : ascii) : N :=
  let n := N_of_ascii a in
  if (48 <=? n) && (n <=? 57) then n - 48
  else if (97 <=? n) && (n <=? 102) then n - 87
  else if (65 <=? n) && (n <=? 70) then n - 55
  else 0.

Definition unhex4 (h1 h2 h3 h4 : ascii) : N :=
  ((unhex h1 * 16 + unhex h2) * 16 + unhex h3) * 16 + unhex h4.

Definition unescape_short (a : ascii) : option N :=
  if Ascii.eqb a dquote then Some 34
  else if Ascii.eqb a "\" then Some 92
  else if Ascii.eqb a "/" then Some 47
  else if Ascii.eqb a "b" then Some 8
  else if Ascii.eqb a "f" then Some 12
  else if Ascii.eqb a "n" then Some 10
  else if Ascii.eqb a "r" then Some 13
  else if Ascii.eqb a "t" then Some 9
  else None.

Definition push (c : N) (r : option (pystr * string)) : option (pystr * string) :=
  match r with
  | Some (s, t) => Some (c :: s, t)
  | None => None
  end.

Fixpoint decode_chars (s : string) : option (pystr * string) :=
  match s with
  | EmptyString => None
  | String a t =>
      if Ascii.eqb a dquote then Some ([], t)
      else if Ascii.eqb a "\" then
        match t with
        | String b t1 =>
            if Ascii.eqb b "u" then
              match t1 with
              | String h1 (String h2 (String h3 (String h4 t2))) =>
                  if is_hex h1 && is_hex h2 && is_hex h3 && is_hex h4 then
                    let hi := unhex4 h1 h2 h3 h4 in
                    match t2 with
                    | String x (String y (String k1 (String k2 (String k3 (String k4 t3))))) =>
                        let lo := unhex4 k1 k2 k3 k4 in
                        if (55296 <=? hi) && (hi <=? 56319)
                           && Ascii.eqb x "\" && Ascii.eqb y "u"
                           && is_hex k1 && is_hex k2 && is_hex k3 && is_hex k4
                           && (56320 <=? lo) && (lo <=? 57343)
                        then push (65536 + (hi - 55296) * 1024 + (lo - 56320)) (decode_chars t3)
                        else push hi (decode_chars t2)
                    | _ => push hi (decode_chars t2)
                    end
                  else None
              | _ => None
              end
            else
              match unescape_short b with
              | Some c => push c (decode_chars t1)
              | None => None
              end
        | EmptyString => None
        end
      else if is_unescaped a then push (N_of_ascii a) (decode_chars t)
      else None
  end.

(** What follows the text of an element in a list (the separator and the
    other elements, or the closing bracket) and the text of a list after
    its opening bracket; the same for the items of a dict. *)
Definition elements_tail (l : list json) (t : string) : string :=
  match l with
  | [] => String "]" t
  | _ => String "," (String " " (String.concat ", " (map dumps l) ++ String "]" t))
  end.

Definition elements_text (l : list json) (t : string) : string :=
  match l with
  | [] => String "]" t
  | _ => String.concat ", " (map dumps l) ++ String "]" t
  end.

Definition members_tail (items : list (pystr * json)) (t : string) : string :=
  match items with
  | [] => String "}" t
  | _ => String "," (String " " (String.concat ", " (map member_text items) ++ String "}" t))
  end.

Definition members_text (items : list (pystr * json)) (t : string) : string :=
  match items with
  | [] => String "}" t
  | _ => String.concat ", " (map member_text items) ++ String "}" t
  end.

Definition prefix_free (v : json) : Prop :=
  ∀ v' t t', is_scalar_json v = true → is_scalar_json v' = true →
    dumps v ++ t = dumps v' ++ t' → v = v' ∧ t = t'.

(** ** More sample inputs *)

(** A command line whose location is the empty string, and its call. *)
Definition empty_location_argv : list pystr := [prog; u "nurse"; []].
Definition empty_location_call : scrape_args :=
  ScrapeArgs [u "indeed"] (u "nurse") [] 50 24 (u "USA").

(** A command line with a fifth and a sixth word. *)
Definition long_argv : list pystr :=
  [prog; u "software engineer"; u "Austin, TX"; u "48"; u "--verbose"; u "7"].

(** What Ctrl-C raises inside the capability. *)
Definition keyboard_interrupt : exception := Exc BaseException [].

(** The example row with a company column beside company_name and one more
    column the script does not read. *)
Definition wider_row : gmap pystr pyval :=
  <[u "company" := VStr (u "Initech")]> (<[u "site" := VStr (u "indeed")]> engineer_row).

(** A row whose title has a quote, a line break and a letter outside ASCII,
    and whose description is missing in the pandas sense. *)
Definition awkward_row : gmap pystr pyval :=
  <[u "title" := VStr [83; 114; 34; 10; 233; 128512]]> (<[u "description" := VNaN]> ∅).

(** An [int] that refuses everything. *)
Definition int_refusing (s : pystr) : outcome Z := Raises (Exc ValueError s).

(** ** The script when a conversion, the iteration or a write fails

    In the definitions above [str], the iteration over the rows and [print]
    cannot fail.  In the program each of them can, inside the [try]
    statement: [str()] of a cell may raise (an [int] of more than 4300
    digits, an object whose [__str__] raises), the object handed back may
    raise while it is iterated, and a write to a stream may stop after part
    of the text and raise (a closed pipe).  [Fallible] is the script with
    these three as parameters beside [int] and [scrape_jobs]; the
    definitions above are the case in which none of them fails
    ([run_when_nothing_fails]). *)

#[export] Instance outcome_ret : MRet outcome := λ A a, Returns a.

#[export] Instance outcome_bind : MBind outcome := λ A B f o,
  match o with
  | Returns a => f a
  | Raises e => Raises e
  end.

(** [text[:n]]. *)
Fixpoint first_chars (n : nat) (s : string) : string :=
  match n, s with
  | S n', String a t => String a (first_chars n' t)
  | _, _ => EmptyString
  end.

(** The exit status the caller of the process sees: the code given to
    [sys.exit], 0 at the normal end, and 1 for an uncaught [Exception]
    (after the traceback).  For what is raised outside [Exception] the
    interpreter decides by its class (the code of a SystemExit, a signal
    for a KeyboardInterrupt): no status is given here. *)
Definition exit_status (s : status) : option Z :=
  match s with
  | Exited code => Some code
  | Uncaught e => if isinstance_Exception e then Some 1%Z else None
  end.

Module Fallible.

(** What [scrape_jobs] handed back, as the [for] statement sees it: the
    rows [iterrows()] yields and, when the iteration does not end by
    itself, what it raises after them. *)
Record table := Table {
  rows : list (gmap pystr pyval);
  raises_after : option exception
}.

(** The text [str()] gives for a cell when it returns. *)
Local Abbreviation text_of := str.

Section Script.

(** The builtin [int]; the cells on which [str()] raises, with what it
    raises; the external [scrape_jobs]; and how the write of a text to each
    stream goes, its flush included: [None] when all of it is written,
    [Some (n, e)] when the stream takes its first [n] characters only and
    the write raises [e]. *)
Variable int : pystr → outcome Z.
Variable str_raises : pyval → option exception.
Variable scrape_jobs : scrape_args → outcome table.
Variable stdout_write : string → option (nat * exception).
Variable stderr_write : string → option (nat * exception).

Definition str (v : pyval) : outcome pystr :=
  match str_raises v with
  | Some e => Raises e
  | None => Returns (text_of v)
  end.

(** The dict built for one row: the seven conversions in the order of the
    dict display, the first that raises ending it. *)
Definition listing (job : gmap pystr pyval) : outcome json :=
  title ← str (get job (u "title") (VStr []));
  company ← str (get job (u "company_name") (VStr []));
  city ← str (get job (u "city") (VStr []));
  state ← str (get job (u "state") (VStr []));
  date_posted ← str (get job (u "date_posted") (VStr []));
  job_url ← str (get job (u "job_url") (VStr []));
  description ← str (get job (u "description") (VStr []));
  mret (JDict
          [ (u "title", JStr title); (u "company", JStr company); (u "city", JStr city);
            (u "state", JStr state); (u "date_posted", JStr date_posted);
            (u "job_url", JStr job_url); (u "description", JStr (take 300 description)) ]).

(** [print(text)] and [print(text, file=sys.stderr)]. *)
Definition print (text : string) : M unit := λ w,
  match stdout_write (text ++ char newline) with
  | None => (Val (), World (stdout w ++ text ++ char newline) (stderr w) (calls w))
  | Some (n, e) =>
      (Raise e,
       World (stdout w ++ first_chars n (text ++ char newline)) (stderr w) (calls w))
  end.

Definition print_stderr (text : string) : M unit := λ w,
  match stderr_write (text ++ char newline) with
  | None => (Val (), World (stdout w) (stderr w ++ text ++ char newline) (calls w))
  | Some (n, e) =>
      (Raise e,
       World (stdout w) (stderr w ++ first_chars n (text ++ char newline)) (calls w))
  end.

(** A call to [scrape_jobs], recorded in [calls]. *)
Definition call_scrape_jobs (a : scrape_args) : M table := λ w,
  lift (scrape_jobs a) (World (stdout w) (stderr w) (calls w ++ [a])%list).

(** [for _, job in jobs.iterrows(): acc = body acc job]: the rows yielded,
    then what the iteration raises, if it does. *)
Definition for_rows {B} (jobs : table) (acc : B) (body : B → gmap pystr pyval → M B) : M B :=
  acc' ← for_each (rows jobs) acc body;
  match raises_after jobs with
  | None => mret acc'
  | Some e => lift (Raises e)
  end.

(** The script, statement by statement. *)
Definition script (argv : list pystr) : M unit :=
  search_term ← index argv 1;
  location ← (if (2 <? length argv)%nat then index argv 2
              else mret (u "United States"));
  hours_old ← (if (3 <? length argv)%nat then index argv 3 ≫= λ s, lift (int s)
               else mret 24%Z);
  try_except_Exception
    (jobs ← call_scrape_jobs
              (ScrapeArgs [u "indeed"] search_term location 50 hours_old (u "USA"));
     results ← for_rows jobs []
                 (λ results job, d ← lift (listing job); mret (results ++ [d])%list);
     print (dumps (JList results)))
    (λ e,
       print_stderr (dumps (JDict [(u "error", JStr (exc_str e))]));;
       sys_exit 1).

(** One run of the process on [sys.argv = argv]. *)
Definition run (argv : list pystr) : status * world :=
  match script argv start with
  | (Val _, w) => (Exited 0, w)
  | (SystemExit code, w) => (Exited code, w)
  | (Raise e, w) => (Uncaught e, w)
  end.

(** *** For the statements *)

(** The dicts for the rows, in order, when every conversion returns. *)
Fixpoint listings (jobs : list (gmap pystr pyval)) : outcome (list json) :=
  match jobs with
  | [] => Returns []
  | job :: jobs' => d ← listing job; ds ← listings jobs'; mret (d :: ds)
  end.

(** What the loop leaves in [results], or what it raises. *)
Definition results (jobs : table) : outcome (list json) :=
  ds ← listings (rows jobs);
  match raises_after jobs with
  | None => Returns ds
  | Some e => Raises e
  end.

(** The end of a run whose [try] block raised [e] after the call [a], [out]
    being what standard output holds by then. *)
Definition handled (out : string) (a : scrape_args) (e : exception) : status * world :=
  if isinstance_Exception e then
    match stderr_write (dumps (error_object e) ++ char newline) with
    | None => (Exited 1, World out (dumps (error_object e) ++ char newline) [a])
    | Some (n, e') =>
        (Uncaught e', World out (first_chars n (dumps (error_object e) ++ char newline)) [a])
    end
  else (Uncaught e, World out EmptyString [a]).

End Script.

End Fallible.

(** The parameters with which nothing fails: no cell on which [str()]
    raises, a table that is iterated to its end, writes that take the whole
    text. *)
Definition no_cell : pyval → option exception := λ _, None.
Definition whole : string → option (nat * exception) := λ _, None.
Definition iterated (scrape_jobs : scrape_args → outcome DataFrame)
    : scrape_args → outcome Fallible.table := λ a,
  match scrape_jobs a with
  | Returns jobs => Returns (Fallible.Table jobs None)
  | Raises e => Raises e
  end.

(** CPython's limit on the conversion of an [int] to text: [str()] raises
    on an [int] of more than 4300 digits. *)
Definition digits (z : Z) : nat :=
  String.length (NilZero.string_of_uint (N.to_uint (Z.abs_N z))).

Definition over_digit_limit : pyval → option exception := λ v,
  match v with
  | VInt z =>
      if (4300 <? digits z)%nat
      then Some (Exc ValueError (u "Exceeds the limit (4300 digits) for integer string conversion; use sys.set_int_max_str_digits() to increase the limit"))
      else None
  | _ => None
  end.

(** A pipe closed by the reader after 40 characters. *)
Definition closed_pipe : string → option (nat * exception) := λ _,
  Some (40%nat, Exc Exception (u "[Errno 32] Broken pipe")).

(** The example row with a title of 4301 digits. *)
Definition huge_title_row : gmap pystr pyval :=
  <[u "title" := VInt (10 ^ 4300)]> engineer_row.



(** ** Tactics *)

(** A call is among the calls of a run on sample inputs: run the process. *)
Ltac call_made := vm_compute; apply list_elem_of_here.

(** * Properties *)

Example dumps_error_demo :
  dumps (JDict [(u "error", JStr (u "rate limited"))]) = lit "{'error': 'rate limited'}".
Proof. reflexivity. Qed.

Example escape_demo :
  dumps (JStr [34; 92; 10; 233; 128512; 127]) = lit "'\'\\\n\u00e9\ud83d\ude00\u007f'".
Proof. reflexivity. Qed.

Example is_json_demo :
  is_json (lit " [ 'a' , {'a' :'\/\u12aF', 'b':[ ]} ] ") = true
  ∧ is_json (lit "['a', ]") = false ∧ is_json (lit "{'a'}") = false
  ∧ is_json (lit "['\x']") = false ∧ is_json (lit "['\u12ag']") = false
  ∧ is_json (lit "['a'] []") = false ∧ is_json (lit "['a") = false.
Proof. repeat split; reflexivity. Qed.

Example str_int_demo : str (VInt (-12)) = u "-12" ∧ str (VInt 0) = u "0".
Proof. split; reflexivity. Qed.

Example int_ascii_demo :
  int_ascii (u " +1_000 ") = Returns 1000%Z ∧ int_ascii (u "-72") = Returns (-72)%Z
  ∧ int_ascii (u "abc") = Raises (Exc ValueError (u "invalid literal for int() with base 10: 'abc'"))
  ∧ int_ascii (u "1__0") = Raises (Exc ValueError (u "invalid literal for int() with base 10: '1__0'"))
  ∧ int_ascii (u "- 1") = Raises (Exc ValueError (u "invalid literal for int() with base 10: '- 1'"))
  ∧ int_ascii (u "12.5") = Raises (Exc ValueError (u "invalid literal for int() with base 10: '12.5'"))
  ∧ int_ascii [] = Raises (Exc ValueError (u "invalid literal for int() with base 10: ''")).
Proof. repeat split; reflexivity. Qed.

Example run_empty_table_demo :
  run int_ascii (returning []) full_argv
  = (Exited 0, World ("[]" ++ char newline) EmptyString [full_call]).
Proof. reflexivity. Qed.

Example run_bare_row_demo :
  run int_ascii (returning [null_title_row]) short_argv
  = (Exited 0,
     World (lit "[{'title': 'None', 'company': '', 'city': '', 'state': '', 'date_posted': '', 'job_url': '', 'description': ''}]"
            ++ char newline)
           EmptyString [short_call]).
Proof. reflexivity. Qed.

Example run_no_search_term_demo :
  run int_ascii (returning []) [prog]
  = (Uncaught (Exc IndexError (u "list index out of range")), start).
Proof. reflexivity. Qed.

Example run_interrupted_demo :
  run int_ascii (raising (Exc BaseException [])) short_argv
  = (Uncaught (Exc BaseException []), World EmptyString EmptyString [short_call]).
Proof. reflexivity. Qed.

(** ** Strings *)

Lemma append_assoc (s t r : string) : (s ++ t) ++ r = s ++ (t ++ r).
Proof. induction s as [|a s IH]; cbn; [done|by f_equal]. Qed.

Lemma append_empty (s : string) : s ++ EmptyString = s.
Proof. induction s as [|a s IH]; cbn; [done|by f_equal]. Qed.

Lemma length_append (s t : string) :
  String.length (s ++ t) = (String.length s + String.length t)%nat.
Proof. induction s as [|a s IH]; cbn; [done|by f_equal]. Qed.

(** ** What [dumps] writes is JSON *)

Lemma is_hex_hex_digit (n : N) : is_hex (hex_digit n) = true.
Proof.
  destruct n as [|p]; [done|].
  do 4 (destruct p as [p|p|]; try reflexivity).
Qed.

Lemma read_chars_backslash_u (n : N) (t : string) :
  read_chars (backslash_u n ++ t) = read_chars t.
Proof.
  unfold backslash_u, hex4. cbn [string_of_list_ascii String.append read_chars].
  change (Ascii.eqb "\" dquote) with false. change (Ascii.eqb "\" "\") with true.
  change (is_short_escape "u") with false. change (Ascii.eqb "u" "u") with true.
  cbv iota. by rewrite !is_hex_hex_digit.
Qed.

Lemma read_chars_printable (c : N) (t : string) :
  32 ≤ c → c ≤ 126 → c ≠ 34 → c ≠ 92 →
  read_chars (char (ascii_of_N c) ++ t) = read_chars t.
Proof.
  intros H1 H2 H3 H4. cbn [char String.append read_chars].
  assert (N_of_ascii (ascii_of_N c) = c) as Hc by (apply N_ascii_embedding; lia).
  assert (Ascii.eqb (ascii_of_N c) dquote = false) as ->.
  { apply Ascii.eqb_neq. intros E. rewrite E in Hc. cbn in Hc. lia. }
  assert (Ascii.eqb (ascii_of_N c) "\" = false) as ->.
  { apply Ascii.eqb_neq. intros E. rewrite E in Hc. cbn in Hc. lia. }
  unfold is_unescaped. rewrite Hc.
  replace (32 <=? c) with true by (symmetry; by apply N.leb_le).
  replace (c <=? 127) with true by (symmetry; apply N.leb_le; lia).
  replace (c =? 34) with false by (symmetry; by apply N.eqb_neq).
  replace (c =? 92) with false by (symmetry; by apply N.eqb_neq).
  done.
Qed.

Lemma read_chars_escape (c : N) (t : string) : read_chars (escape c ++ t) = read_chars t.
Proof.
  unfold escape.
  repeat (match goal with |- context [if ?c =? ?k then _ else _] =>
            destruct (N.eqb_spec c k); [reflexivity|] end).
  destruct (N.leb_spec 32 c), (N.leb_spec c 126); cbn [andb].
  1: by apply read_chars_printable.
  all: destruct (c <? 65536); cbv zeta;
       rewrite ?append_assoc, ?read_chars_backslash_u; done.
Qed.

Lemma read_chars_encoded (s : pystr) (t : string) :
  read_chars (String.concat EmptyString (escape <$> s) ++ String dquote t) = Some t.
Proof.
  induction s as [|c s IH].
  - reflexivity.
  - cbn [fmap list_fmap].
    replace (String.concat EmptyString (escape c :: (escape <$> s)))
      with (escape c ++ String.concat EmptyString (escape <$> s)).
    + by rewrite append_assoc, read_chars_escape.
    + cbn [String.concat]. destruct (escape <$> s); cbn [String.append]; [|done].
      clear. induction (escape c); cbn; [done|by f_equal].
Qed.

Lemma read_chars_string (s : pystr) (t : string) :
  ∃ body, encode_basestring_ascii s ++ t = String dquote body ∧ read_chars body = Some t.
Proof.
  exists (String.concat EmptyString (escape <$> s) ++ String dquote t). split.
  - unfold encode_basestring_ascii, char. cbn [String.append]. by rewrite append_assoc.
  - apply read_chars_encoded.
Qed.

(** Induction on a value with the values inside it. *)
Lemma json_nested_ind (P : json → Prop) :
  (∀ s, P (JStr s)) →
  (∀ l, Forall P l → P (JList l)) →
  (∀ items, Forall (λ kv, P kv.2) items → P (JDict items)) →
  ∀ v, P v.
Proof.
  intros Hs Hl Hd. fix IH 1. intros [s|l|items].
  - apply Hs.
  - apply Hl. induction l as [|v l IHl]; constructor; [apply IH|exact IHl].
  - apply Hd. induction items as [|[k v] items IHi]; constructor; [apply IH|exact IHi].
Qed.

(** The text of a value starts with a quote, a bracket or a brace. *)
Lemma dumps_head (v : json) :
  ∃ a t, dumps v = String a t ∧ (a = dquote ∨ a = "["%char ∨ a = "{"%char).
Proof.
  destruct v as [s|l|items]; cbn [dumps]; eexists _, _; (split; [reflexivity|]); auto.
Qed.

Lemma read_value_space (fuel : nat) (s : string) :
  read_value fuel (String " " s) = read_value fuel s.
Proof. by destruct fuel. Qed.

Lemma read_elements_space (fuel : nat) (s : string) :
  read_elements fuel (String " " s) = read_elements fuel s.
Proof. destruct fuel; [done|]. cbn [read_elements]. by rewrite read_value_space. Qed.

Lemma read_members_space (fuel : nat) (s : string) :
  read_members fuel (String " " s) = read_members fuel s.
Proof. by destruct fuel. Qed.

Lemma concat_cons_cons (sep x y : string) (l : list string) :
  String.concat sep (x :: y :: l) = x ++ sep ++ String.concat sep (y :: l).
Proof. reflexivity. Qed.

Lemma read_elements_concat (l : list json) :
  Forall reads_back l → l ≠ [] →
  ∀ fuel rest, (String.length (String.concat ", " (map dumps l)) < fuel)%nat →
    read_elements fuel (String.concat ", " (map dumps l) ++ String "]" rest) = Some rest.
Proof.
  induction l as [|x l IH]; [done|]. intros HF _ fuel rest Hfuel.
  inversion_clear HF as [|? ? Hx Hl]. destruct fuel as [|n]; [lia|].
  destruct l as [|y l].
  - cbn [map String.concat] in *. cbn [read_elements]. rewrite Hx by lia. reflexivity.
  - cbn [map] in *. rewrite concat_cons_cons in *. rewrite !length_append in Hfuel.
    cbn [String.length] in Hfuel. rewrite append_assoc. cbn [read_elements].
    rewrite Hx by lia. cbn [String.append skip_ws is_ws Ascii.eqb Bool.eqb orb].
    rewrite read_elements_space. apply IH; [done|done|lia].
Qed.

Lemma member_text_length (kv : pystr * json) :
  (String.length (dumps kv.2) < String.length (member_text kv))%nat.
Proof.
  unfold member_text, encode_basestring_ascii, char. rewrite !length_append.
  cbn [String.length]. lia.
Qed.

Lemma read_members_concat (items : list (pystr * json)) :
  Forall (λ kv, reads_back kv.2) items → items ≠ [] →
  ∀ fuel rest, (String.length (String.concat ", " (map member_text items)) < fuel)%nat →
    read_members fuel (String.concat ", " (map member_text items) ++ String "}" rest)
    = Some rest.
Proof.
  induction items as [|[k v] items IH]; [done|]. intros HF _ fuel rest Hfuel.
  inversion_clear HF as [|? ? Hv Hitems]. cbn [snd] in Hv.
  destruct fuel as [|n]; [lia|].
  pose proof (member_text_length (k, v)) as Hlen. cbn [snd] in Hlen.
  assert (∀ tail, ∃ body, member_text (k, v) ++ tail = String dquote body
                    ∧ read_chars body = Some (String ":" (String " " (dumps v ++ tail))))
    as Hmember.
  { intros tail. unfold member_text. cbn [fst snd]. rewrite !append_assoc.
    apply (read_chars_string k). }
  destruct items as [|kv items].
  - cbn [map String.concat] in *.
    destruct (Hmember (String "}" rest)) as (body & -> & Hbody).
    cbn [read_members skip_ws is_ws Ascii.eqb Bool.eqb orb dquote].
    rewrite Hbody. cbn [skip_ws is_ws Ascii.eqb Bool.eqb orb].
    rewrite read_value_space, Hv by lia. reflexivity.
  - cbn [map] in *. rewrite concat_cons_cons in *. rewrite !length_append in Hfuel.
    cbn [String.length] in Hfuel. rewrite append_assoc.
    destruct (Hmember ((", " ++ String.concat ", " (member_text kv :: map member_text items))
                       ++ String "}" rest)) as (body & -> & Hbody).
    cbn [read_members skip_ws is_ws Ascii.eqb Bool.eqb orb dquote].
    rewrite Hbody. cbn [skip_ws is_ws Ascii.eqb Bool.eqb orb].
    rewrite read_value_space, Hv by lia.
    cbn [String.append skip_ws is_ws Ascii.eqb Bool.eqb orb].
    rewrite read_members_space. apply IH; [done|done|lia].
Qed.

Lemma concat_head (l : list json) :
  l ≠ [] →
  ∃ a t, String.concat ", " (map dumps l) = String a t
         ∧ (a = dquote ∨ a = "["%char ∨ a = "{"%char).
Proof.
  destruct l as [|x l]; [done|]. intros _.
  destruct (dumps_head x) as (a & t & Hx & Ha).
  destruct l as [|y l]; cbn [map]; [|rewrite concat_cons_cons]; cbn [String.concat];
    rewrite Hx; cbn [String.append]; eauto.
Qed.

Lemma member_concat_head (items : list (pystr * json)) :
  items ≠ [] →
  ∃ t, String.concat ", " (map member_text items) = String dquote t.
Proof.
  destruct items as [|kv items]; [done|]. intros _.
  destruct items as [|kv' items]; cbn [map]; [|rewrite concat_cons_cons]; cbn [String.concat];
    unfold member_text at 1, encode_basestring_ascii, char; cbn [String.append]; eauto.
Qed.

Lemma dumps_reads_back (v : json) : reads_back v.
Proof.
  induction v as [s|l IH|items IH] using json_nested_ind; intros fuel rest Hfuel.
  - destruct fuel as [|n]; [cbn in Hfuel; lia|].
    cbn [dumps]. destruct (read_chars_string s rest) as (body & -> & Hbody).
    by cbn [read_value skip_ws is_ws Ascii.eqb Bool.eqb orb dquote].
  - cbn [dumps] in *. rewrite !length_append in Hfuel. cbn [String.length] in Hfuel.
    destruct fuel as [|n]; [lia|].
    destruct l as [|x l]; [reflexivity|].
    pose proof (read_elements_concat (x :: l) IH ltac:(done) n rest ltac:(lia)) as Hread.
    destruct (concat_head (x :: l)) as (a & t & Hhead & Ha); [done|].
    cbn [String.append]. rewrite append_assoc. cbn [String.append].
    rewrite Hhead in *. cbn [String.append] in *.
    destruct Ha as [->|[->| ->]]; exact Hread.
  - cbn [dumps] in *. rewrite !length_append in Hfuel. cbn [String.length] in Hfuel.
    destruct fuel as [|n]; [lia|].
    destruct items as [|kv items]; [reflexivity|].
    change (map (λ kv0, encode_basestring_ascii kv0.1 ++ ": " ++ dumps kv0.2) (kv :: items))
      with (map member_text (kv :: items)) in *.
    pose proof (read_members_concat (kv :: items) IH ltac:(done) n rest ltac:(lia)) as Hread.
    destruct (member_concat_head (kv :: items)) as (t & Hhead); [done|].
    cbn [String.append]. rewrite append_assoc. cbn [String.append].
    rewrite Hhead in *. cbn [String.append] in *. exact Hread.
Qed.

(** What [json.dumps] returns is a JSON text, and stays one with the newline
    that [print] adds. *)
Lemma dumps_is_json (v : json) :
  is_json (dumps v) = true ∧ is_json (dumps v ++ char newline) = true.
Proof.
  unfold is_json. split.
  - rewrite <- (append_empty (dumps v)) at 2. by rewrite dumps_reads_back.
  - rewrite dumps_reads_back; [done|]. rewrite length_append. lia.
Qed.

Lemma dumps_list_is_json_array (l : list json) :
  is_json_array (dumps (JList l) ++ char newline) = true.
Proof.
  unfold is_json_array. rewrite (proj2 (dumps_is_json (JList l))). reflexivity.
Qed.

Lemma dumps_dict_is_json_object (items : list (pystr * json)) :
  is_json_object (dumps (JDict items) ++ char newline) = true.
Proof.
  unfold is_json_object. rewrite (proj2 (dumps_is_json (JDict items))). reflexivity.
Qed.

(** ** The script *)

Section Properties.

Variable int : pystr → outcome Z.
Variable scrape_jobs : scrape_args → outcome DataFrame.

(** Sequencing after a value, and after a call that may raise. *)
Lemma bind_ret {A B} (a : A) (f : A → M B) : mret a ≫= f = f a.
Proof. reflexivity. Qed.

Lemma bind_lift {A B} (o : outcome A) (f : A → M B) (w : world) :
  (lift o ≫= f) w = match o with Returns a => f a w | Raises e => (Raise e, w) end.
Proof. by destruct o. Qed.

(** The loop leaves the streams alone and appends one dict per row. *)
Lemma for_each_listing (jobs : DataFrame) (acc : list json) (w : world) :
  for_each (iterrows jobs) acc (λ results job, mret (results ++ [listing job])%list) w
  = (Val (acc ++ (listing <$> jobs))%list, w).
Proof.
  unfold iterrows. revert acc. induction jobs as [|job jobs IH]; intros acc.
  - cbn. by rewrite app_nil_r.
  - cbn. unfold mbind, M_bind, mret, M_ret. cbn in IH. unfold mret, M_ret in IH.
    rewrite IH. by rewrite <- app_assoc.
Qed.

(** The [try] statement, from a given state of the process. *)
Lemma try_block (a : scrape_args) (w : world) :
  try_except_Exception
    (jobs ← call_scrape_jobs scrape_jobs a;
     results ← for_each (iterrows jobs) []
                 (λ results job, mret (results ++ [listing job])%list);
     print (dumps (JList results)))
    (λ e, print_stderr (dumps (JDict [(u "error", JStr (exc_str e))]));; sys_exit 1) w
  = let w' := World (stdout w) (stderr w) (calls w ++ [a])%list in
    match scrape_jobs a with
    | Returns jobs =>
        (Val (), World (stdout w ++ dumps (JList (listing <$> jobs)) ++ char newline)
                       (stderr w) (calls w'))
    | Raises e =>
        if isinstance_Exception e
        then (SystemExit 1,
              World (stdout w) (stderr w ++ dumps (error_object e) ++ char newline) (calls w'))
        else (Raise e, w')
    end.
Proof.
  unfold try_except_Exception, call_scrape_jobs, mbind, M_bind, lift.
  destruct (scrape_jobs a) as [jobs|e].
  - by rewrite for_each_listing.
  - by destruct (isinstance_Exception e).
Qed.

(** What a run does, case by case. *)
Lemma run_spec (argv : list pystr) :
  run int scrape_jobs argv =
  match argv !! 1%nat with
  | None => (Uncaught (Exc IndexError (u "list index out of range")), start)
  | Some st =>
      match (match argv !! 3%nat with Some s => int s | None => Returns 24%Z end) with
      | Raises e => (Uncaught e, start)
      | Returns h =>
          let a := ScrapeArgs [u "indeed"] st (default (u "United States") (argv !! 2%nat))
                              50 h (u "USA") in
          match scrape_jobs a with
          | Returns jobs =>
              (Exited 0, World (dumps (JList (listing <$> jobs)) ++ char newline)
                               EmptyString [a])
          | Raises e =>
              if isinstance_Exception e
              then (Exited 1, World EmptyString (dumps (error_object e) ++ char newline) [a])
              else (Uncaught e, World EmptyString EmptyString [a])
          end
      end
  end.
Proof.
  unfold run, script.
  destruct argv as [|prog [|st [|loc [|hs rest]]]]; try reflexivity.
  all: cbn [lookup list_lookup default id length Nat.ltb Nat.leb index].
  all: rewrite !bind_ret.
  3: rewrite bind_lift; destruct (int hs) as [h|e]; [|done].
  all: rewrite try_block; cbn [stdout stderr calls start app String.append].
  all: destruct (scrape_jobs _) as [jobs|e]; [done|]; by destruct (isinstance_Exception e).
Qed.

(** A call recorded by a run is the only one, and the run ends as the
    call ended. *)
Lemma run_of_call (argv : list pystr) (a : scrape_args) :
  a ∈ calls (run int scrape_jobs argv).2 →
  (∃ st h, argv !! 1%nat = Some st
           ∧ match argv !! 3%nat with Some s => int s | None => Returns 24%Z end = Returns h
           ∧ a = ScrapeArgs [u "indeed"] st (default (u "United States") (argv !! 2%nat))
                            50 h (u "USA"))
  ∧ run int scrape_jobs argv =
    match scrape_jobs a with
    | Returns jobs =>
        (Exited 0, World (dumps (JList (listing <$> jobs)) ++ char newline) EmptyString [a])
    | Raises e =>
        if isinstance_Exception e
        then (Exited 1, World EmptyString (dumps (error_object e) ++ char newline) [a])
        else (Uncaught e, World EmptyString EmptyString [a])
    end.
Proof.
  rewrite run_spec.
  destruct (argv !! 1%nat) as [st|]; [|by intros ?%elem_of_nil].
  destruct (match argv !! 3%nat with Some s => int s | None => Returns 24%Z end)
    as [h|e] eqn:Hh; [|by intros ?%elem_of_nil].
  cbn zeta. set (a0 := ScrapeArgs _ _ _ _ _ _). intros Ha.
  assert (a = a0) as ->.
  { destruct (scrape_jobs a0) as [jobs|e]; [|destruct (isinstance_Exception e)];
      cbn in Ha; by apply list_elem_of_singleton in Ha. }
  split; [by exists st, h|done].
Qed.

(** A run whose call succeeded prints the projection of every row. *)
Lemma run_of_success (argv : list pystr) (a : scrape_args) (jobs : DataFrame) :
  a ∈ calls (run int scrape_jobs argv).2 → scrape_jobs a = Returns jobs →
  run int scrape_jobs argv
  = (Exited 0, World (dumps (JList (listing <$> jobs)) ++ char newline) EmptyString [a]).
Proof. intros [_ ->]%run_of_call Hjobs. by rewrite Hjobs. Qed.

Lemma listing_is_listing (job : gmap pystr pyval) : is_listing (listing job) = true.
Proof. reflexivity. Qed.

Lemma listing_item (job : gmap pystr pyval) (out col : pystr) :
  (out, col) ∈ fields →
  item (listing job) out
  = Some (JStr (if bool_decide (out = u "description")
                then take 300 (str (get job col (VStr [])))
                else str (get job col (VStr [])))).
Proof.
  unfold fields. rewrite !elem_of_cons, elem_of_nil.
  intros [H|[H|[H|[H|[H|[H|[H|[]]]]]]]]; injection H as -> ->; reflexivity.
Qed.

(** C2: in the emitted array, the description of the listing made from a
    row is the text of the row's description cut to its first
    min(300, length) characters: at most 300 characters, a prefix of the
    source, nothing appended. *)
Theorem description_is_prefix_of_300 (argv : list pystr) (a : scrape_args) (jobs : DataFrame) :
  a ∈ calls (run int scrape_jobs argv).2 → scrape_jobs a = Returns jobs →
  ∃ elems : list json,
    stdout (run int scrape_jobs argv).2 = dumps (JList elems) ++ char newline
    ∧ Forall2 (λ job v,
                 let source := str (get job (u "description") (VStr [])) in
                 ∃ d, item v (u "description") = Some (JStr d)
                      ∧ (length d ≤ 300)%nat
                      ∧ length d = (300 `min` length source)%nat
                      ∧ d = take (300 `min` length source) source
                      ∧ d `prefix_of` source)
              jobs elems.
Proof.
  intros Ha Hjobs. rewrite (run_of_success argv a jobs Ha Hjobs).
  exists (listing <$> jobs). split; [done|].
  apply Forall2_fmap_r, Forall_Forall2_diag, Forall_forall. intros job _.
  cbn zeta. set (source := str _).
  exists (take 300 source). split; [reflexivity|].
  rewrite length_take. repeat split.
  - lia.
  - destruct (Nat.min_spec 300 (length source)) as [[? ->]|[? ->]]; [done|].
    by rewrite !take_ge by lia.
  - apply prefix_take.
Qed.

(** C3: when the third argument is not accepted by [int], the run ends in
    the exception [int] raised, uncaught, with no call to the external
    capability and nothing printed. *)
Theorem bad_hours_old_fails_before_call (argv : list pystr) (s : pystr) (e : exception) :
  argv !! 3%nat = Some s → int s = Raises e →
  run int scrape_jobs argv = (Uncaught e, start)
  ∧ calls (run int scrape_jobs argv).2 = [].
Proof.
  intros Hs He. rewrite run_spec, Hs, He.
  destruct (argv !! 1%nat) as [st|] eqn:Hst; [done|].
  apply lookup_ge_None in Hst. apply lookup_lt_Some in Hs. lia.
Qed.

(** C4: when the external capability raises an [Exception] whose text is
    [m], the run prints the one JSON object with key error and value [m] on
    standard error, prints nothing on standard output and exits with
    status 1; for the text rate limited, standard error holds
    [{"error": "rate limited"}]. *)
Theorem external_error_is_reported (argv : list pystr) (a : scrape_args) (e : exception) :
  a ∈ calls (run int scrape_jobs argv).2 → scrape_jobs a = Raises e →
  isinstance_Exception e = true →
  run int scrape_jobs argv
  = (Exited 1,
     World EmptyString (dumps (JDict [(u "error", JStr (exc_str e))]) ++ char newline) [a])
  ∧ is_json_object (stderr (run int scrape_jobs argv).2) = true
  ∧ (exc_str e = u "rate limited" →
     stderr (run int scrape_jobs argv).2 = lit "{'error': 'rate limited'}" ++ char newline).
Proof.
  intros [_ ->]%run_of_call He Hexc. rewrite He, Hexc. split; [done|].
  cbn [snd stderr]. unfold error_object. split; [apply dumps_dict_is_json_object|].
  by intros ->.
Qed.

(** C5: with the search term as only argument, the external capability is
    called once, with location United States and hours_old 24. *)
Theorem defaults_when_omitted (name term : pystr) :
  ∃ a, calls (run int scrape_jobs [name; term]).2 = [a]
       ∧ search_term a = term
       ∧ location a = u "United States"
       ∧ hours_old a = 24%Z.
Proof.
  rewrite run_spec. cbn [lookup list_lookup default].
  eexists (ScrapeArgs _ term _ _ _ _). split; [|done].
  destruct (scrape_jobs _) as [jobs|e]; [done|]. by destruct (isinstance_Exception e).
Qed.

(** C6: every call a run makes to the external capability is its only
    call and has the fixed configuration: the single site indeed, 50
    results wanted, country USA, and for hours_old the value [int] gave
    for the third argument, or 24 without a third argument; and a run
    whose arguments are accepted makes that call. *)
Theorem call_has_fixed_configuration (argv : list pystr) :
  (∀ a, a ∈ calls (run int scrape_jobs argv).2 →
        calls (run int scrape_jobs argv).2 = [a]
        ∧ site_name a = [u "indeed"]
        ∧ results_wanted a = 50%Z
        ∧ country_indeed a = u "USA"
        ∧ match argv !! 3%nat with
          | Some s => int s = Returns (hours_old a)
          | None => hours_old a = 24%Z
          end)
  ∧ (∀ term h,
        argv !! 1%nat = Some term →
        match argv !! 3%nat with Some s => int s | None => Returns 24%Z end = Returns h →
        ∃ a, calls (run int scrape_jobs argv).2 = [a]
             ∧ search_term a = term ∧ hours_old a = h).
Proof.
  split.
  - intros a Ha. destruct (run_of_call argv a Ha) as [(st & h & Hst & Hh & ->) ->].
    cbn [site_name results_wanted country_indeed hours_old]. split_and!; try done.
    + destruct (scrape_jobs _) as [jobs|e]; [done|]. by destruct (isinstance_Exception e).
    + destruct (argv !! 3%nat); [done|congruence].
  - intros term h Hterm Hh. rewrite run_spec, Hterm, Hh. cbn zeta.
    eexists (ScrapeArgs _ term _ _ h _). split; [|done].
    destruct (scrape_jobs _) as [jobs|e]; [done|]. by destruct (isinstance_Exception e).
Qed.

(** C9: when the capability returns the single row of the specification's
    example, the run exits with status 0 and standard output holds the
    one-element array with title Engineer, company Acme (read from
    company_name), city Springfield, state IL, date_posted 2024-01-01,
    job_url http://x and a description of 300 letters A; the text is the
    array in [json.dumps]'s default layout, followed by a newline. *)
Theorem engineer_example (argv : list pystr) (a : scrape_args) :
  a ∈ calls (run int scrape_jobs argv).2 → scrape_jobs a = Returns [engineer_row] →
  run int scrape_jobs argv
  = (Exited 0, World (dumps engineer_output ++ char newline) EmptyString [a])
  ∧ dumps engineer_output
    = lit "[{'title': 'Engineer', 'company': 'Acme', 'city': 'Springfield', 'state': 'IL', 'date_posted': '2024-01-01', 'job_url': 'http://x', 'description': '"
      ++ string_of_list_ascii (repeat "A"%char 300) ++ lit "'}]".
Proof.
  intros Ha Hjobs. rewrite (run_of_success argv a _ Ha Hjobs). split; [|by vm_compute].
  by replace (JList (listing <$> [engineer_row])) with engineer_output by by vm_compute.
Qed.

(** C10: in the emitted array, a field whose column is present in the row
    with the value None is the text None, not the empty string; whenever
    the column is present, the value read is the cell and not the
    default. *)
Theorem null_value_is_text_None (argv : list pystr) (a : scrape_args) (jobs : DataFrame) :
  a ∈ calls (run int scrape_jobs argv).2 → scrape_jobs a = Returns jobs →
  ∃ elems : list json,
    stdout (run int scrape_jobs argv).2 = dumps (JList elems) ++ char newline
    ∧ Forall2 (λ job v,
                 ∀ out col, (out, col) ∈ fields →
                   (job !! col = Some VNone →
                    item v out = Some (JStr (u "None")) ∧ item v out ≠ Some (JStr []))
                   ∧ (∀ x, job !! col = Some x → get job col (VStr []) = x))
              jobs elems.
Proof.
  intros Ha Hjobs. rewrite (run_of_success argv a jobs Ha Hjobs).
  exists (listing <$> jobs). split; [done|].
  apply Forall2_fmap_r, Forall_Forall2_diag, Forall_forall. intros job _ out col Hf.
  rewrite (listing_item job out col Hf). unfold get. split.
  - intros ->. by case_bool_decide.
  - by intros x ->.
Qed.

End Properties.

(** * The theorems at sample inputs *)

Lemma description_is_prefix_of_300_witness :
  full_call ∈ calls (run int_ascii (returning [engineer_row; ∅]) full_argv).2
  ∧ returning [engineer_row; ∅] full_call = Returns [engineer_row; ∅]
  ∧ ∃ elems : list json,
      stdout (run int_ascii (returning [engineer_row; ∅]) full_argv).2
      = dumps (JList elems) ++ char newline
      ∧ Forall2 (λ job v,
                   ∃ d, item v (u "description") = Some (JStr d)
                        ∧ (length d ≤ 300)%nat
                        ∧ length d
                          = (300 `min` length (str (get job (u "description") (VStr []))))%nat
                        ∧ d = take (300 `min` length (str (get job (u "description") (VStr []))))
                                   (str (get job (u "description") (VStr [])))
                        ∧ d `prefix_of` str (get job (u "description") (VStr [])))
                [engineer_row; ∅] elems.
Proof.
  assert (full_call ∈ calls (run int_ascii (returning [engineer_row; ∅]) full_argv).2) as Ha
    by call_made.
  split; [exact Ha|]. split; [reflexivity|].
  exact (description_is_prefix_of_300 int_ascii (returning [engineer_row; ∅]) full_argv
           full_call [engineer_row; ∅] Ha eq_refl).
Defined.

Lemma bad_hours_old_fails_before_call_witness :
  abc_argv !! 3%nat = Some (u "abc")
  ∧ int_ascii (u "abc")
    = Raises (Exc ValueError (u "invalid literal for int() with base 10: 'abc'"))
  ∧ run int_ascii (returning [engineer_row]) abc_argv
    = (Uncaught (Exc ValueError (u "invalid literal for int() with base 10: 'abc'")), start)
  ∧ calls (run int_ascii (returning [engineer_row]) abc_argv).2 = [].
Proof.
  split; [reflexivity|]. split; [reflexivity|].
  apply (bad_hours_old_fails_before_call int_ascii (returning [engineer_row]) abc_argv (u "abc"));
    reflexivity.
Defined.

Lemma external_error_is_reported_witness :
  short_call ∈ calls (run int_ascii (raising rate_limited) short_argv).2
  ∧ raising rate_limited short_call = Raises rate_limited
  ∧ isinstance_Exception rate_limited = true
  ∧ run int_ascii (raising rate_limited) short_argv
    = (Exited 1,
       World EmptyString
             (dumps (JDict [(u "error", JStr (exc_str rate_limited))]) ++ char newline)
             [short_call])
  ∧ is_json_object (stderr (run int_ascii (raising rate_limited) short_argv).2) = true
  ∧ (exc_str rate_limited = u "rate limited" →
     stderr (run int_ascii (raising rate_limited) short_argv).2
     = lit "{'error': 'rate limited'}" ++ char newline).
Proof.
  assert (short_call ∈ calls (run int_ascii (raising rate_limited) short_argv).2) as Ha
    by call_made.
  split; [exact Ha|]. split; [reflexivity|]. split; [reflexivity|].
  exact (external_error_is_reported int_ascii (raising rate_limited) short_argv
           short_call rate_limited Ha eq_refl eq_refl).
Defined.

Lemma call_has_fixed_configuration_witness :
  full_call ∈ calls (run int_ascii (returning []) full_argv).2
  ∧ (calls (run int_ascii (returning []) full_argv).2 = [full_call]
     ∧ site_name full_call = [u "indeed"]
     ∧ results_wanted full_call = 50%Z
     ∧ country_indeed full_call = u "USA"
     ∧ int_ascii (u "48") = Returns (hours_old full_call))
  ∧ full_argv !! 1%nat = Some (u "software engineer")
  ∧ int_ascii (u "48") = Returns 48%Z
  ∧ ∃ a, calls (run int_ascii (returning []) full_argv).2 = [a]
         ∧ search_term a = u "software engineer" ∧ hours_old a = 48%Z.
Proof.
  assert (full_call ∈ calls (run int_ascii (returning []) full_argv).2) as Ha by call_made.
  destruct (call_has_fixed_configuration int_ascii (returning []) full_argv) as [Hcall Hmade].
  split; [exact Ha|]. split; [exact (Hcall full_call Ha)|].
  split; [reflexivity|]. split; [reflexivity|].
  exact (Hmade (u "software engineer") 48%Z eq_refl eq_refl).
Defined.

Lemma engineer_example_witness :
  short_call ∈ calls (run int_ascii (returning [engineer_row]) short_argv).2
  ∧ returning [engineer_row] short_call = Returns [engineer_row]
  ∧ run int_ascii (returning [engineer_row]) short_argv
    = (Exited 0, World (dumps engineer_output ++ char newline) EmptyString [short_call]).
Proof.
  assert (short_call ∈ calls (run int_ascii (returning [engineer_row]) short_argv).2) as Ha
    by call_made.
  split; [exact Ha|]. split; [reflexivity|].
  exact (proj1 (engineer_example int_ascii (returning [engineer_row]) short_argv
                  short_call Ha eq_refl)).
Defined.

Lemma null_value_is_text_None_witness :
  short_call ∈ calls (run int_ascii (returning [null_title_row]) short_argv).2
  ∧ returning [null_title_row] short_call = Returns [null_title_row]
  ∧ ∃ elems : list json,
      stdout (run int_ascii (returning [null_title_row]) short_argv).2
      = dumps (JList elems) ++ char newline
      ∧ Forall2 (λ job v,
                   ∀ out col, (out, col) ∈ fields →
                     (job !! col = Some VNone →
                      item v out = Some (JStr (u "None")) ∧ item v out ≠ Some (JStr []))
                     ∧ (∀ x, job !! col = Some x → get job col (VStr []) = x))
                [null_title_row] elems.
Proof.
  assert (short_call ∈ calls (run int_ascii (returning [null_title_row]) short_argv).2) as Ha
    by call_made.
  split; [exact Ha|]. split; [reflexivity|].
  exact (null_value_is_text_None int_ascii (returning [null_title_row]) short_argv
           short_call [null_title_row] Ha eq_refl).
Defined.

(** * A run that is neither of the two outcomes *)


(** * Further properties of the script *)

(** ** Rows that agree on the columns read *)

Lemma same_columns_lookup (job job' : gmap pystr pyval) (col : pystr) :
  same_columns job job' = true → In col columns → job !! col = job' !! col.
Proof.
  unfold same_columns. rewrite forallb_forall. intros Hall Hcol.
  specialize (Hall col Hcol). by apply bool_decide_eq_true in Hall.
Qed.

Lemma listing_same_columns (job job' : gmap pystr pyval) :
  same_columns job job' = true → listing job = listing job'.
Proof.
  intros Hsame. unfold listing, get.
  rewrite (same_columns_lookup job job' (u "title") Hsame) by (cbn; auto 10).
  rewrite (same_columns_lookup job job' (u "company_name") Hsame) by (cbn; auto 10).
  rewrite (same_columns_lookup job job' (u "city") Hsame) by (cbn; auto 10).
  rewrite (same_columns_lookup job job' (u "state") Hsame) by (cbn; auto 10).
  rewrite (same_columns_lookup job job' (u "date_posted") Hsame) by (cbn; auto 10).
  rewrite (same_columns_lookup job job' (u "job_url") Hsame) by (cbn; auto 10).
  by rewrite (same_columns_lookup job job' (u "description") Hsame) by (cbn; auto 10).
Qed.

(** ** The characters [dumps] writes *)

Lemma all_printable_app (s t : string) :
  all_printable (s ++ t) = all_printable s && all_printable t.
Proof. induction s as [|a s IH]; cbn; [done|]. by rewrite IH, andb_assoc. Qed.

Lemma is_printable_hex_digit (n : N) : is_printable (hex_digit n) = true.
Proof.
  destruct n as [|p]; [done|].
  do 4 (destruct p as [p|p|]; try reflexivity).
Qed.

Lemma all_printable_backslash_u (n : N) : all_printable (backslash_u n) = true.
Proof.
  unfold backslash_u, hex4. cbn [string_of_list_ascii String.append all_printable].
  by rewrite !is_printable_hex_digit.
Qed.

Lemma all_printable_escape (c : N) : all_printable (escape c) = true.
Proof.
  unfold escape.
  repeat (match goal with |- context [if ?c =? ?k then _ else _] =>
            destruct (N.eqb_spec c k); [reflexivity|] end).
  destruct (N.leb_spec 32 c), (N.leb_spec c 126); cbn [andb].
  1: { cbn [char all_printable]. unfold is_printable.
       rewrite N_ascii_embedding by lia.
       replace (32 <=? c) with true by (symmetry; by apply N.leb_le).
       by replace (c <=? 126) with true by (symmetry; by apply N.leb_le). }
  all: destruct (c <? 65536); cbv zeta;
       by rewrite ?all_printable_app, ?all_printable_backslash_u.
Qed.

Lemma concat_empty_cons (x : string) (l : list string) :
  String.concat EmptyString (x :: l) = x ++ String.concat EmptyString l.
Proof. destruct l; cbn [String.concat String.append]; [by rewrite append_empty|done]. Qed.

Lemma all_printable_encode (s : pystr) : all_printable (encode_basestring_ascii s) = true.
Proof.
  unfold encode_basestring_ascii. rewrite !all_printable_app. cbn [char all_printable].
  rewrite andb_true_r. cbn [is_printable N_of_ascii dquote]. cbn.
  induction s as [|c s IH]; [done|].
  cbn [fmap list_fmap]. by rewrite concat_empty_cons, all_printable_app, all_printable_escape.
Qed.

Lemma all_printable_concat (l : list string) :
  Forall (λ t, all_printable t = true) l →
  all_printable (String.concat ", " l) = true.
Proof.
  induction 1 as [|x l Hx Hl IH]; [done|].
  destruct l as [|y l]; [done|].
  rewrite concat_cons_cons, !all_printable_app, Hx, IH. done.
Qed.

Lemma all_printable_dumps (v : json) : all_printable (dumps v) = true.
Proof.
  induction v as [s|l IH|items IH] using json_nested_ind; cbn [dumps].
  - apply all_printable_encode.
  - rewrite !all_printable_app, all_printable_concat; [done|].
    by apply Forall_map.
  - rewrite !all_printable_app, all_printable_concat; [done|].
    apply Forall_map. eapply Forall_impl; [exact IH|]. intros [k v] Hv. cbn [fst snd] in *.
    by rewrite !all_printable_app, all_printable_encode, Hv.
Qed.

Lemma is_one_line_newline (s : string) :
  all_printable s = true → is_one_line (s ++ char newline) = true.
Proof.
  induction s as [|a s IH]; [done|]. cbn [all_printable]. intros [Ha Hs]%andb_true_iff.
  cbn [String.append is_one_line]. rewrite Ha, (IH Hs).
  by destruct s.
Qed.

(** ** The length of what [dumps] writes for a string *)

Lemma length_backslash_u (n : N) : String.length (backslash_u n) = 6%nat.
Proof. reflexivity. Qed.

Lemma length_escape (c : N) :
  (1 ≤ String.length (escape c) ≤ 12)%nat.
Proof.
  unfold escape.
  repeat (match goal with |- context [if ?c =? ?k then _ else _] =>
            destruct (N.eqb_spec c k); [cbn; lia|] end).
  destruct ((32 <=? c) && (c <=? 126)); [cbn; lia|].
  destruct (c <? 65536); cbv zeta; rewrite ?length_append, ?length_backslash_u; lia.
Qed.

Lemma length_encode (s : pystr) :
  (2 + length s ≤ String.length (encode_basestring_ascii s) ≤ 2 + 12 * length s)%nat.
Proof.
  unfold encode_basestring_ascii. rewrite !length_append. cbn [char String.length].
  induction s as [|c s IH]; [cbn; lia|].
  cbn [fmap list_fmap length]. rewrite concat_empty_cons, length_append.
  pose proof (length_escape c). lia.
Qed.

(** ** The text [dumps] writes determines the value *)

Lemma unhex_hex_digit (k : N) : k < 16 → unhex (hex_digit k) = k.
Proof.
  intros Hk. destruct k as [|p]; [done|].
  do 4 (destruct p as [p|p|]; try reflexivity); lia.
Qed.

Lemma nibble_lt (x : N) : N.land x 15 < 16.
Proof. change 15 with (N.ones 4). rewrite N.land_ones. by apply N.mod_lt. Qed.

Lemma unhex4_hex_digits (n : N) :
  n < 65536 →
  unhex4 (hex_digit (N.land (N.shiftr n 12) 15)) (hex_digit (N.land (N.shiftr n 8) 15))
         (hex_digit (N.land (N.shiftr n 4) 15)) (hex_digit (N.land n 15)) = n.
Proof.
  intros Hn. unfold unhex4. rewrite !unhex_hex_digit by apply nibble_lt.
  change 15 with (N.ones 4). rewrite !N.land_ones, !N.shiftr_div_pow2.
  change (2 ^ 12) with 4096. change (2 ^ 8) with 256. change (2 ^ 4) with 16.
  zify. Z.to_euclidean_division_equations. lia.
Qed.

Lemma decode_backslash_u (n : N) (t : string) :
  n < 65536 → (n < 55296 ∨ 56319 < n) →
  decode_chars (backslash_u n ++ t) = push n (decode_chars t).
Proof.
  intros Hn Hrange. unfold backslash_u, hex4.
  cbn [string_of_list_ascii String.append decode_chars].
  change (Ascii.eqb "\" dquote) with false. change (Ascii.eqb "\" "\") with true.
  change (Ascii.eqb "u" "u") with true. cbv iota.
  rewrite !is_hex_hex_digit. cbn [andb]. cbv zeta. rewrite (unhex4_hex_digits n Hn).
  assert ((55296 <=? n) && (n <=? 56319) = false) as Hhi.
  { destruct (N.leb_spec 55296 n), (N.leb_spec n 56319); cbn; try done. lia. }
  destruct t as [|x [|y [|k1 [|k2 [|k3 [|k4 t3]]]]]]; try reflexivity.
  by rewrite Hhi.
Qed.

Lemma decode_surrogate_pair (s1 s2 : N) (t : string) :
  55296 ≤ s1 → s1 ≤ 56319 → 56320 ≤ s2 → s2 ≤ 57343 →
  decode_chars (backslash_u s1 ++ backslash_u s2 ++ t)
  = push (65536 + (s1 - 55296) * 1024 + (s2 - 56320)) (decode_chars t).
Proof.
  intros H1 H2 H3 H4. unfold backslash_u, hex4.
  cbn [string_of_list_ascii String.append decode_chars].
  change (Ascii.eqb "\" dquote) with false. change (Ascii.eqb "\" "\") with true.
  change (Ascii.eqb "u" "u") with true. cbv iota.
  rewrite !is_hex_hex_digit. cbn [andb]. cbv zeta.
  rewrite (unhex4_hex_digits s1), (unhex4_hex_digits s2) by lia.
  replace (55296 <=? s1) with true by (symmetry; by apply N.leb_le).
  replace (s1 <=? 56319) with true by (symmetry; by apply N.leb_le).
  replace (56320 <=? s2) with true by (symmetry; by apply N.leb_le).
  replace (s2 <=? 57343) with true by (symmetry; by apply N.leb_le).
  reflexivity.
Qed.

Lemma lor_surrogate_base (x : N) :
  x < 1024 → N.lor 55296 x = 55296 + x ∧ N.lor 56320 x = 56320 + x.
Proof.
  intros Hx.
  assert (forallb (λ k, (N.lor 55296 k =? 55296 + k) && (N.lor 56320 k =? 56320 + k))
                  (N.of_nat <$> seq 0 1024) = true) as Hall by (vm_compute; reflexivity).
  rewrite forallb_forall in Hall. specialize (Hall x).
  rewrite andb_true_iff, !N.eqb_eq in Hall. apply Hall.
  apply list_elem_of_In, list_elem_of_fmap. exists (N.to_nat x).
  split; [by rewrite N2Nat.id|]. apply elem_of_seq. lia.
Qed.

Lemma decode_escape (c : N) (t : string) :
  is_scalar c = true → decode_chars (escape c ++ t) = push c (decode_chars t).
Proof.
  unfold is_scalar. rewrite andb_true_iff, orb_true_iff, !N.ltb_lt, N.leb_le.
  intros [Hsur Hmax]. unfold escape.
  repeat (match goal with |- context [if ?c =? ?k then _ else _] =>
            destruct (N.eqb_spec c k); [subst; reflexivity|] end).
  destruct (N.leb_spec 32 c), (N.leb_spec c 126); cbn [andb].
  1: { cbn [char String.append decode_chars].
       assert (N_of_ascii (ascii_of_N c) = c) as Hc by (apply N_ascii_embedding; lia).
       assert (Ascii.eqb (ascii_of_N c) dquote = false) as ->.
       { apply Ascii.eqb_neq. intros E. rewrite E in Hc. cbn in Hc. lia. }
       assert (Ascii.eqb (ascii_of_N c) "\" = false) as ->.
       { apply Ascii.eqb_neq. intros E. rewrite E in Hc. cbn in Hc. lia. }
       unfold is_unescaped. rewrite Hc.
       replace (32 <=? c) with true by (symmetry; by apply N.leb_le).
       replace (c <=? 127) with true by (symmetry; apply N.leb_le; lia).
       replace (c =? 34) with false by (symmetry; by apply N.eqb_neq).
       replace (c =? 92) with false by (symmetry; by apply N.eqb_neq).
       done. }
  all: destruct (N.ltb_spec c 65536); cbv zeta.
  all: try (apply decode_backslash_u; lia).
  all: rewrite append_assoc.
  all: set (m := c - 65536).
  all: assert (m < 1048576) as Hm by (unfold m; lia).
  all: assert (c = 65536 + m) as Hcm by (unfold m; lia).
  all: clearbody m.
  all: change 1023 with (N.ones 10); rewrite !N.land_ones, N.shiftr_div_pow2.
  all: change (2 ^ 10) with 1024.
  all: assert (m / 1024 < 1024) as Hdiv by (apply N.Div0.div_lt_upper_bound; lia).
  all: rewrite (N.mod_small (m / 1024) 1024 Hdiv).
  all: assert (m mod 1024 < 1024) as Hmod by (by apply N.mod_lt).
  all: rewrite (proj1 (lor_surrogate_base _ Hdiv)), (proj2 (lor_surrogate_base _ Hmod)).
  all: revert Hdiv Hmod; pose proof (N.div_mod m 1024 ltac:(done)) as Hdm; revert Hdm.
  all: generalize (m / 1024), (m mod 1024); intros q r Hdm Hdiv Hmod.
  all: rewrite decode_surrogate_pair by lia.
  all: f_equal; lia.
Qed.

Lemma decode_encoded (s : pystr) (t : string) :
  forallb is_scalar s = true →
  decode_chars (String.concat EmptyString (escape <$> s) ++ String dquote t) = Some (s, t).
Proof.
  induction s as [|c s IH]; [done|]. cbn [forallb]. intros [Hc Hs]%andb_true_iff.
  cbn [fmap list_fmap]. rewrite concat_empty_cons, append_assoc, (decode_escape c _ Hc).
  by rewrite (IH Hs).
Qed.

(** The text of a string ends where its closing quote stands: followed by
    anything, it is the text of no other string. *)
Lemma encode_prefix_free (s s' : pystr) (t t' : string) :
  forallb is_scalar s = true → forallb is_scalar s' = true →
  encode_basestring_ascii s ++ t = encode_basestring_ascii s' ++ t' → s = s' ∧ t = t'.
Proof.
  intros Hs Hs'. unfold encode_basestring_ascii, char. cbn [String.append].
  rewrite !append_assoc. cbn [String.append]. intros [= Heq].
  pose proof (decode_encoded s t Hs) as H1. pose proof (decode_encoded s' t' Hs') as H2.
  rewrite Heq in H1. rewrite H1 in H2. by injection H2.
Qed.

Lemma concat_elements_tail (x : json) (l : list json) (t : string) :
  String.concat ", " (map dumps (x :: l)) ++ String "]" t = dumps x ++ elements_tail l t.
Proof.
  destruct l as [|y l]; [done|]. cbn [map]. rewrite concat_cons_cons.
  by rewrite !append_assoc.
Qed.

Lemma concat_members_tail (kv : pystr * json) (items : list (pystr * json)) (t : string) :
  String.concat ", " (map member_text (kv :: items)) ++ String "}" t
  = encode_basestring_ascii kv.1 ++ String ":" (String " " (dumps kv.2 ++ members_tail items t)).
Proof.
  destruct items as [|kv' items]; cbn [map]; [cbn [String.concat]|rewrite concat_cons_cons];
    unfold member_text at 1; by rewrite !append_assoc.
Qed.

Lemma elements_tail_cons (x : json) (l : list json) (t : string) :
  elements_tail (x :: l) t = String "," (String " " (dumps x ++ elements_tail l t)).
Proof. unfold elements_tail at 1. by rewrite concat_elements_tail. Qed.

Lemma elements_text_cons (x : json) (l : list json) (t : string) :
  elements_text (x :: l) t = dumps x ++ elements_tail l t.
Proof. unfold elements_text. by rewrite concat_elements_tail. Qed.

Lemma members_tail_cons (kv : pystr * json) (items : list (pystr * json)) (t : string) :
  members_tail (kv :: items) t
  = String "," (String " " (encode_basestring_ascii kv.1
                            ++ String ":" (String " " (dumps kv.2 ++ members_tail items t)))).
Proof. unfold members_tail at 1. by rewrite concat_members_tail. Qed.

Lemma members_text_cons (kv : pystr * json) (items : list (pystr * json)) (t : string) :
  members_text (kv :: items) t
  = encode_basestring_ascii kv.1 ++ String ":" (String " " (dumps kv.2 ++ members_tail items t)).
Proof. unfold members_text. by rewrite concat_members_tail. Qed.

Lemma dumps_list_text (l : list json) (t : string) :
  dumps (JList l) ++ t = String "[" (elements_text l t).
Proof.
  cbn [dumps String.append]. f_equal. rewrite append_assoc. by destruct l.
Qed.

Lemma dumps_dict_text (items : list (pystr * json)) (t : string) :
  dumps (JDict items) ++ t = String "{" (members_text items t).
Proof.
  cbn [dumps String.append]. f_equal. rewrite append_assoc. by destruct items.
Qed.

Lemma dumps_str_text (s : pystr) (t : string) :
  ∃ r, dumps (JStr s) ++ t = String dquote r.
Proof. by eexists. Qed.

Lemma string_cons_inj (a a' : ascii) (s s' : string) :
  String a s = String a' s' → a = a' ∧ s = s'.
Proof. by intros [= -> ->]. Qed.

Lemma elements_prefix_free (l : list json) :
  Forall prefix_free l →
  ∀ l' t t', forallb is_scalar_json l = true → forallb is_scalar_json l' = true →
    elements_tail l t = elements_tail l' t' → l = l' ∧ t = t'.
Proof.
  induction 1 as [|x l Hx Hl IH]; intros l' t t' Hs Hs' Heq.
  - destruct l' as [|x' l']; [by injection Heq|discriminate].
  - destruct l' as [|x' l']; [discriminate|].
    rewrite !elements_tail_cons in Heq.
    apply string_cons_inj in Heq as [_ Heq]. apply string_cons_inj in Heq as [_ Heq].
    cbn [forallb] in Hs, Hs'.
    apply andb_true_iff in Hs as [Hsx Hsl]. apply andb_true_iff in Hs' as [Hsx' Hsl'].
    destruct (Hx x' _ _ Hsx Hsx' Heq) as [-> Htail].
    destruct (IH l' t t' Hsl Hsl' Htail) as [-> ->]. done.
Qed.

Lemma members_prefix_free (items : list (pystr * json)) :
  Forall (λ kv, prefix_free kv.2) items →
  ∀ items' t t',
    is_scalar_json (JDict items) = true → is_scalar_json (JDict items') = true →
    members_tail items t = members_tail items' t' → items = items' ∧ t = t'.
Proof.
  induction 1 as [|[k v] items Hv Hitems IH]; intros items' t t' Hs Hs' Heq.
  - destruct items' as [|kv' items']; [by injection Heq|discriminate].
  - destruct items' as [|[k' v'] items']; [discriminate|].
    rewrite !members_tail_cons in Heq.
    apply string_cons_inj in Heq as [_ Heq]. apply string_cons_inj in Heq as [_ Heq].
    cbn [fst snd] in Heq, Hv.
    cbn [is_scalar_json forallb fst snd] in Hs, Hs'.
    apply andb_true_iff in Hs as [[Hsk Hsv]%andb_true_iff Hsi].
    apply andb_true_iff in Hs' as [[Hsk' Hsv']%andb_true_iff Hsi'].
    destruct (encode_prefix_free k k' _ _ Hsk Hsk' Heq) as [-> Hrest].
    apply string_cons_inj in Hrest as [_ Hrest]. apply string_cons_inj in Hrest as [_ Hrest].
    destruct (Hv v' _ _ Hsv Hsv' Hrest) as [-> Htail].
    destruct (IH items' t t' Hsi Hsi' Htail) as [-> ->]. done.
Qed.

Lemma head_is_not_bracket (v : json) (t r : string) : dumps v ++ t ≠ String "]" r.
Proof.
  destruct (dumps_head v) as (c & r' & Hv & Hc). rewrite Hv. cbn [String.append].
  intros [= -> _]. by destruct Hc as [?|[?|?]].
Qed.

Lemma dumps_prefix_free (v : json) : prefix_free v.
Proof.
  induction v as [s|l IH|items IH] using json_nested_ind; intros v' t t' Hs Hs' Heq.
  - destruct v' as [s'|l'|items'].
    + by destruct (encode_prefix_free s s' t t' Hs Hs' Heq) as [-> ->].
    + rewrite dumps_list_text in Heq. by destruct (dumps_str_text s t) as [r Hr]; rewrite Hr in Heq.
    + rewrite dumps_dict_text in Heq. by destruct (dumps_str_text s t) as [r Hr]; rewrite Hr in Heq.
  - rewrite dumps_list_text in Heq. destruct v' as [s'|l'|items'].
    + by destruct (dumps_str_text s' t') as [r Hr]; rewrite Hr in Heq.
    + rewrite dumps_list_text in Heq. apply string_cons_inj in Heq as [_ Heq].
      cbn [is_scalar_json] in Hs, Hs'.
      destruct l as [|x l], l' as [|x' l']; rewrite ?elements_text_cons in Heq.
      * by injection Heq as ->.
      * symmetry in Heq. by apply head_is_not_bracket in Heq.
      * by apply head_is_not_bracket in Heq.
      * cbn [forallb] in Hs, Hs'.
        apply andb_true_iff in Hs as [Hsx Hsl]. apply andb_true_iff in Hs' as [Hsx' Hsl'].
        inversion_clear IH as [|? ? Hx Hl].
        destruct (Hx x' _ _ Hsx Hsx' Heq) as [-> Htail].
        by destruct (elements_prefix_free l Hl l' t t' Hsl Hsl' Htail) as [-> ->].
    + by rewrite dumps_dict_text in Heq.
  - rewrite dumps_dict_text in Heq. destruct v' as [s'|l'|items'].
    + by destruct (dumps_str_text s' t') as [r Hr]; rewrite Hr in Heq.
    + by rewrite dumps_list_text in Heq.
    + rewrite dumps_dict_text in Heq. apply string_cons_inj in Heq as [_ Heq].
      destruct items as [|[k v] items], items' as [|[k' v'] items'];
        rewrite ?members_text_cons in Heq.
      * by injection Heq as ->.
      * unfold encode_basestring_ascii, char in Heq. cbn [String.append] in Heq. discriminate.
      * unfold encode_basestring_ascii, char in Heq. cbn [String.append] in Heq. discriminate.
      * cbn [fst snd] in Heq.
        cbn [is_scalar_json forallb fst snd] in Hs, Hs'.
        apply andb_true_iff in Hs as [[Hsk Hsv]%andb_true_iff Hsi].
        apply andb_true_iff in Hs' as [[Hsk' Hsv']%andb_true_iff Hsi'].
        inversion_clear IH as [|? ? Hv Hitems]. cbn [snd] in Hv.
        destruct (encode_prefix_free k k' _ _ Hsk Hsk' Heq) as [-> Hrest].
        apply string_cons_inj in Hrest as [_ Hrest].
        apply string_cons_inj in Hrest as [_ Hrest].
        destruct (Hv v' _ _ Hsv Hsv' Hrest) as [-> Htail].
        by destruct (members_prefix_free items Hitems items' t t' Hsi Hsi' Htail) as [-> ->].
Qed.

(** Two values with the same text are the same value. *)
Lemma dumps_injective (v v' : json) :
  is_scalar_json v = true → is_scalar_json v' = true → dumps v = dumps v' → v = v'.
Proof.
  intros Hs Hs' Heq.
  destruct (dumps_prefix_free v v' EmptyString EmptyString Hs Hs') as [-> _]; [|done].
  by rewrite !append_empty.
Qed.

Section Further.

Variable int : pystr → outcome Z.
Variable scrape_jobs : scrape_args → outcome DataFrame.

(** X1: without a search term ([sys.argv] has no second element) the run
    ends in an uncaught IndexError, before any call to the capability and
    with nothing printed. *)
Theorem missing_search_term_is_uncaught (argv : list pystr) :
  argv !! 1%nat = None →
  run int scrape_jobs argv
  = (Uncaught (Exc IndexError (u "list index out of range")), start).
Proof. intros Hargv. by rewrite run_spec, Hargv. Qed.

(** X2: words after the third argument are ignored: the run on a command
    line is the run on its first four words. *)
Theorem extra_arguments_are_ignored (argv : list pystr) :
  run int scrape_jobs argv = run int scrape_jobs (take 4 argv).
Proof. rewrite !run_spec. by rewrite !lookup_take_lt by lia. Qed.

(** X3: the search term and the location reach the capability as they
    were typed: the call's search term is the second word of the command
    line, and its location is the third word whenever there is one, the
    empty string included; the default location is used only when there is
    none. *)
Theorem search_term_and_location_are_passed_verbatim (argv : list pystr) (a : scrape_args) :
  a ∈ calls (run int scrape_jobs argv).2 →
  argv !! 1%nat = Some (search_term a)
  ∧ match argv !! 2%nat with
    | Some loc => location a = loc
    | None => location a = u "United States"
    end.
Proof.
  intros [(st & h & Hst & _ & ->) _]%run_of_call. cbn [search_term location].
  split; [done|]. by destruct (argv !! 2%nat).
Qed.

(** X4: what the capability raises outside the [Exception] hierarchy (a
    KeyboardInterrupt, a SystemExit) is not caught: the run ends in it, and
    the script prints no error object and nothing else. *)
Theorem non_exception_is_not_caught (argv : list pystr) (a : scrape_args) (e : exception) :
  a ∈ calls (run int scrape_jobs argv).2 → scrape_jobs a = Raises e →
  isinstance_Exception e = false →
  run int scrape_jobs argv = (Uncaught e, World EmptyString EmptyString [a]).
Proof. intros [_ ->]%run_of_call He Hexc. by rewrite He, Hexc. Qed.

(** X5: an empty table is a success, not an error: the run exits with
    status 0 and prints the empty array on standard output. *)
Theorem empty_table_prints_empty_array (argv : list pystr) (a : scrape_args) :
  a ∈ calls (run int scrape_jobs argv).2 → scrape_jobs a = Returns [] →
  run int scrape_jobs argv = (Exited 0, World ("[]" ++ char newline) EmptyString [a]).
Proof. intros Ha Hjobs. by rewrite (run_of_success int scrape_jobs argv a [] Ha Hjobs). Qed.

(** X6: [int] is consulted only for a third argument: without one, the run
    is the same whatever [int] would answer. *)
Theorem int_is_consulted_only_for_third_argument
    (int' : pystr → outcome Z) (argv : list pystr) :
  argv !! 3%nat = None → run int scrape_jobs argv = run int' scrape_jobs argv.
Proof. intros Hargv. by rewrite !run_spec, Hargv. Qed.

(** X7: each field is [str()] of the cell under its column, whatever the
    cell holds (a number, a date, NaN), and it is emitted whole: only the
    description is cut to 300 characters. *)
Theorem present_cell_is_emitted_as_str (argv : list pystr) (a : scrape_args) (jobs : DataFrame) :
  a ∈ calls (run int scrape_jobs argv).2 → scrape_jobs a = Returns jobs →
  ∃ elems : list json,
    stdout (run int scrape_jobs argv).2 = dumps (JList elems) ++ char newline
    ∧ Forall2 (λ job v,
                 ∀ out col x, (out, col) ∈ fields → job !! col = Some x →
                   item v out
                   = Some (JStr (if bool_decide (out = u "description")
                                 then take 300 (str x) else str x)))
              jobs elems.
Proof.
  intros Ha Hjobs. rewrite (run_of_success int scrape_jobs argv a jobs Ha Hjobs).
  exists (listing <$> jobs). split; [done|].
  apply Forall2_fmap_r, Forall_Forall2_diag, Forall_forall. intros job _ out col x Hf Hx.
  rewrite (listing_item job out col Hf). unfold get. by rewrite Hx.
Qed.

(** X8: the run depends on the returned table only through the seven
    columns the script reads: a capability answering with rows that agree
    on them, row by row, gives the same run, whatever other columns (a
    company column for one) the rows have. *)
Theorem run_depends_only_on_columns_read
    (scrape_jobs' : scrape_args → outcome DataFrame)
    (argv : list pystr) (a : scrape_args) (jobs jobs' : DataFrame) :
  a ∈ calls (run int scrape_jobs argv).2 →
  scrape_jobs a = Returns jobs → scrape_jobs' a = Returns jobs' →
  Forall2 (λ job job', same_columns job job' = true) jobs jobs' →
  run int scrape_jobs' argv = run int scrape_jobs argv.
Proof.
  intros Ha Hjobs Hjobs' Hsame.
  assert (listing <$> jobs' = listing <$> jobs) as Hlistings.
  { clear Hjobs Hjobs'. induction Hsame as [|job job' jobs jobs' Hjob _ IH]; [done|].
    cbn [fmap list_fmap]. by rewrite (listing_same_columns job job' Hjob), IH. }
  destruct (run_of_call int scrape_jobs argv a Ha) as [(st & h & Hst & Hh & Heq) Hrun].
  rewrite Hrun, Hjobs, (run_spec int scrape_jobs'), Hst, Hh. cbn zeta.
  by rewrite <- Heq, Hjobs', Hlistings.
Qed.

(** X9: what the script prints on a stream is one line of printable ASCII
    ended by a newline: no line break, control character or character
    outside ASCII reaches either stream, whatever the cells or the
    exception's text hold. *)
Theorem streams_hold_one_printable_line (argv : list pystr) :
  let r := run int scrape_jobs argv in
  (stdout r.2 = EmptyString ∨ is_one_line (stdout r.2) = true)
  ∧ (stderr r.2 = EmptyString ∨ is_one_line (stderr r.2) = true).
Proof.
  cbn zeta. rewrite run_spec.
  destruct (argv !! 1%nat) as [st|]; [|by split; left].
  destruct (match argv !! 3%nat with Some s => int s | None => Returns 24%Z end)
    as [h|e]; [|by split; left].
  cbn zeta. destruct (scrape_jobs _) as [jobs|e].
  - split; [right|by left]. apply is_one_line_newline, all_printable_dumps.
  - destruct (isinstance_Exception e); [|by split; left].
    split; [by left|right]. apply is_one_line_newline, all_printable_dumps.
Qed.

(** X11: the cut bounds the printed description too: a string of [n]
    characters is printed in at least [n + 2] and at most [12 n + 2]
    characters, so the description of every emitted listing takes at most
    3602 characters of standard output. *)
Theorem printed_description_is_bounded (argv : list pystr) (a : scrape_args) (jobs : DataFrame) :
  a ∈ calls (run int scrape_jobs argv).2 → scrape_jobs a = Returns jobs →
  ∃ elems : list json,
    stdout (run int scrape_jobs argv).2 = dumps (JList elems) ++ char newline
    ∧ Forall (λ v, ∃ d, item v (u "description") = Some (JStr d)
                        ∧ (length d + 2 ≤ String.length (dumps (JStr d)) ≤ 12 * length d + 2)%nat
                        ∧ (String.length (dumps (JStr d)) ≤ 3602)%nat)
             elems.
Proof.
  intros Ha Hjobs. rewrite (run_of_success int scrape_jobs argv a jobs Ha Hjobs).
  exists (listing <$> jobs). split; [done|].
  apply Forall_fmap, Forall_forall. intros job _.
  eexists. split; [reflexivity|]. cbn [dumps].
  pose proof (length_encode (take 300 (str (get job (u "description") (VStr []))))) as Hlen.
  pose proof (length_take (str (get job (u "description") (VStr []))) 300) as Htake.
  revert Hlen Htake. generalize (take 300 (str (get job (u "description") (VStr [])))).
  intros d Hlen Htake. lia.
Qed.

(** X12: the printed array loses nothing: two successful runs that print
    the same text on standard output emitted the same listings, field by
    field, as long as the emitted strings are made of Unicode scalar values
    (no surrogate code points). *)
Theorem stdout_determines_the_listings
    (int' : pystr → outcome Z) (scrape_jobs' : scrape_args → outcome DataFrame)
    (argv argv' : list pystr) (a a' : scrape_args) (jobs jobs' : DataFrame) :
  a ∈ calls (run int scrape_jobs argv).2 → scrape_jobs a = Returns jobs →
  a' ∈ calls (run int' scrape_jobs' argv').2 → scrape_jobs' a' = Returns jobs' →
  is_scalar_json (JList (listing <$> jobs)) = true →
  is_scalar_json (JList (listing <$> jobs')) = true →
  stdout (run int scrape_jobs argv).2 = stdout (run int' scrape_jobs' argv').2 →
  listing <$> jobs = listing <$> jobs'.
Proof.
  intros Ha Hjobs Ha' Hjobs' Hs Hs'.
  rewrite (run_of_success int scrape_jobs argv a jobs Ha Hjobs).
  rewrite (run_of_success int' scrape_jobs' argv' a' jobs' Ha' Hjobs').
  cbn [snd stdout]. intros Heq.
  destruct (dumps_prefix_free _ _ _ _ Hs Hs' Heq) as [Hlist _]. by injection Hlist.
Qed.

End Further.

(** * The further properties at sample inputs *)

Lemma missing_search_term_is_uncaught_witness :
  [prog] !! 1%nat = None
  ∧ run int_ascii (returning [engineer_row]) [prog]
    = (Uncaught (Exc IndexError (u "list index out of range")), start).
Proof.
  split; [reflexivity|].
  exact (missing_search_term_is_uncaught int_ascii (returning [engineer_row]) [prog] eq_refl).
Defined.

Lemma search_term_and_location_are_passed_verbatim_witness :
  empty_location_call ∈ calls (run int_ascii (returning []) empty_location_argv).2
  ∧ empty_location_argv !! 1%nat = Some (search_term empty_location_call)
  ∧ location empty_location_call = [].
Proof.
  assert (empty_location_call ∈ calls (run int_ascii (returning []) empty_location_argv).2)
    as Ha by call_made.
  split; [exact Ha|].
  exact (search_term_and_location_are_passed_verbatim int_ascii (returning [])
           empty_location_argv empty_location_call Ha).
Defined.

Lemma non_exception_is_not_caught_witness :
  short_call ∈ calls (run int_ascii (raising keyboard_interrupt) short_argv).2
  ∧ raising keyboard_interrupt short_call = Raises keyboard_interrupt
  ∧ isinstance_Exception keyboard_interrupt = false
  ∧ run int_ascii (raising keyboard_interrupt) short_argv
    = (Uncaught keyboard_interrupt, World EmptyString EmptyString [short_call]).
Proof.
  assert (short_call ∈ calls (run int_ascii (raising keyboard_interrupt) short_argv).2)
    as Ha by call_made.
  split; [exact Ha|]. split; [reflexivity|]. split; [reflexivity|].
  exact (non_exception_is_not_caught int_ascii (raising keyboard_interrupt) short_argv
           short_call keyboard_interrupt Ha eq_refl eq_refl).
Defined.

Lemma empty_table_prints_empty_array_witness :
  full_call ∈ calls (run int_ascii (returning []) full_argv).2
  ∧ returning [] full_call = Returns []
  ∧ run int_ascii (returning []) full_argv
    = (Exited 0, World ("[]" ++ char newline) EmptyString [full_call]).
Proof.
  assert (full_call ∈ calls (run int_ascii (returning []) full_argv).2) as Ha by call_made.
  split; [exact Ha|]. split; [reflexivity|].
  exact (empty_table_prints_empty_array int_ascii (returning []) full_argv full_call Ha eq_refl).
Defined.

Lemma int_is_consulted_only_for_third_argument_witness :
  short_argv !! 3%nat = None
  ∧ run int_ascii (returning [engineer_row]) short_argv
    = run int_refusing (returning [engineer_row]) short_argv.
Proof.
  split; [reflexivity|].
  exact (int_is_consulted_only_for_third_argument int_ascii (returning [engineer_row])
           int_refusing short_argv eq_refl).
Defined.

Lemma present_cell_is_emitted_as_str_witness :
  short_call ∈ calls (run int_ascii (returning [awkward_row]) short_argv).2
  ∧ returning [awkward_row] short_call = Returns [awkward_row]
  ∧ ∃ elems : list json,
      stdout (run int_ascii (returning [awkward_row]) short_argv).2
      = dumps (JList elems) ++ char newline
      ∧ Forall2 (λ job v,
                   ∀ out col x, (out, col) ∈ fields → job !! col = Some x →
                     item v out
                     = Some (JStr (if bool_decide (out = u "description")
                                   then take 300 (str x) else str x)))
                [awkward_row] elems.
Proof.
  assert (short_call ∈ calls (run int_ascii (returning [awkward_row]) short_argv).2) as Ha
    by call_made.
  split; [exact Ha|]. split; [reflexivity|].
  exact (present_cell_is_emitted_as_str int_ascii (returning [awkward_row]) short_argv
           short_call [awkward_row] Ha eq_refl).
Defined.

Lemma run_depends_only_on_columns_read_witness :
  short_call ∈ calls (run int_ascii (returning [engineer_row]) short_argv).2
  ∧ returning [engineer_row] short_call = Returns [engineer_row]
  ∧ returning [wider_row] short_call = Returns [wider_row]
  ∧ Forall2 (λ job job', same_columns job job' = true) [engineer_row] [wider_row]
  ∧ run int_ascii (returning [wider_row]) short_argv
    = run int_ascii (returning [engineer_row]) short_argv.
Proof.
  assert (short_call ∈ calls (run int_ascii (returning [engineer_row]) short_argv).2) as Ha
    by call_made.
  assert (Forall2 (λ job job', same_columns job job' = true) [engineer_row] [wider_row])
    as Hsame by (repeat constructor; vm_compute; reflexivity).
  split; [exact Ha|]. split; [reflexivity|]. split; [reflexivity|]. split; [exact Hsame|].
  exact (run_depends_only_on_columns_read int_ascii (returning [engineer_row])
           (returning [wider_row]) short_argv short_call [engineer_row] [wider_row]
           Ha eq_refl eq_refl Hsame).
Defined.

Lemma printed_description_is_bounded_witness :
  short_call ∈ calls (run int_ascii (returning [engineer_row; awkward_row]) short_argv).2
  ∧ returning [engineer_row; awkward_row] short_call = Returns [engineer_row; awkward_row]
  ∧ ∃ elems : list json,
      stdout (run int_ascii (returning [engineer_row; awkward_row]) short_argv).2
      = dumps (JList elems) ++ char newline
      ∧ Forall (λ v, ∃ d, item v (u "description") = Some (JStr d)
                          ∧ (length d + 2 ≤ String.length (dumps (JStr d)) ≤ 12 * length d + 2)%nat
                          ∧ (String.length (dumps (JStr d)) ≤ 3602)%nat)
               elems.
Proof.
  assert (short_call
          ∈ calls (run int_ascii (returning [engineer_row; awkward_row]) short_argv).2) as Ha
    by call_made.
  split; [exact Ha|]. split; [reflexivity|].
  exact (printed_description_is_bounded int_ascii (returning [engineer_row; awkward_row])
           short_argv short_call [engineer_row; awkward_row] Ha eq_refl).
Defined.

Lemma stdout_determines_the_listings_witness :
  short_call ∈ calls (run int_ascii (returning [engineer_row]) short_argv).2
  ∧ returning [engineer_row] short_call = Returns [engineer_row]
  ∧ full_call ∈ calls (run int_ascii (returning [wider_row]) full_argv).2
  ∧ returning [wider_row] full_call = Returns [wider_row]
  ∧ is_scalar_json (JList (listing <$> [engineer_row])) = true
  ∧ is_scalar_json (JList (listing <$> [wider_row])) = true
  ∧ stdout (run int_ascii (returning [engineer_row]) short_argv).2
    = stdout (run int_ascii (returning [wider_row]) full_argv).2
  ∧ listing <$> [engineer_row] = listing <$> [wider_row].
Proof.
  assert (short_call ∈ calls (run int_ascii (returning [engineer_row]) short_argv).2) as Ha
    by call_made.
  assert (full_call ∈ calls (run int_ascii (returning [wider_row]) full_argv).2) as Ha'
    by call_made.
  assert (is_scalar_json (JList (listing <$> [engineer_row])) = true) as Hs
    by (vm_compute; reflexivity).
  assert (is_scalar_json (JList (listing <$> [wider_row])) = true) as Hs'
    by (vm_compute; reflexivity).
  assert (stdout (run int_ascii (returning [engineer_row]) short_argv).2
          = stdout (run int_ascii (returning [wider_row]) full_argv).2) as Hout
    by (vm_compute; reflexivity).
  split; [exact Ha|]. split; [reflexivity|]. split; [exact Ha'|]. split; [reflexivity|].
  split; [exact Hs|]. split; [exact Hs'|]. split; [exact Hout|].
  exact (stdout_determines_the_listings int_ascii (returning [engineer_row])
           int_ascii (returning [wider_row]) short_argv full_argv short_call full_call
           [engineer_row] [wider_row] Ha eq_refl Ha' eq_refl Hs Hs' Hout).
Defined.

(** * When a conversion, the iteration or a write fails *)

Section Failures.

Variable int : pystr → outcome Z.
Variable str_raises : pyval → option exception.
Variable scrape_jobs : scrape_args → outcome Fallible.table.
Variable stdout_write : string → option (nat * exception).
Variable stderr_write : string → option (nat * exception).

(** The loop leaves the streams alone: it appends one dict per row, or
    raises what the first failing conversion raises. *)
Lemma for_each_listings (jobs : list (gmap pystr pyval)) (acc : list json) (w : world) :
  for_each jobs acc
    (λ results job, d ← lift (Fallible.listing str_raises job); mret (results ++ [d])%list) w
  = match Fallible.listings str_raises jobs with
    | Returns ds => (Val (acc ++ ds)%list, w)
    | Raises e => (Raise e, w)
    end.
Proof.
  revert acc. induction jobs as [|job jobs IH]; intros acc.
  - cbn. by rewrite app_nil_r.
  - cbn [for_each Fallible.listings].
    unfold mbind, M_bind, outcome_bind, mret, M_ret, outcome_ret, lift in *.
    destruct (Fallible.listing str_raises job) as [d|e]; [|done].
    rewrite IH. destruct (Fallible.listings str_raises jobs) as [ds|e]; [|done].
    by rewrite <- app_assoc.
Qed.

(** The [try] statement, from the start of the process. *)
Lemma try_block_after_call (a : scrape_args) :
  (let (r, w) :=
     try_except_Exception
       (jobs ← Fallible.call_scrape_jobs scrape_jobs a;
        results ← Fallible.for_rows jobs []
                    (λ results job,
                       d ← lift (Fallible.listing str_raises job);
                       mret (results ++ [d])%list);
        Fallible.print stdout_write (dumps (JList results)))
       (λ e,
          Fallible.print_stderr stderr_write (dumps (JDict [(u "error", JStr (exc_str e))]));;
          sys_exit 1) start in
   match r with
   | Val _ => (Exited 0, w)
   | SystemExit code => (Exited code, w)
   | Raise e => (Uncaught e, w)
   end)
  = match scrape_jobs a with
    | Raises e => Fallible.handled stderr_write EmptyString a e
    | Returns jobs =>
        match Fallible.results str_raises jobs with
        | Raises e => Fallible.handled stderr_write EmptyString a e
        | Returns ds =>
            match stdout_write (dumps (JList ds) ++ char newline) with
            | None => (Exited 0, World (dumps (JList ds) ++ char newline) EmptyString [a])
            | Some (n, e) =>
                Fallible.handled stderr_write
                  (first_chars n (dumps (JList ds) ++ char newline)) a e
            end
        end
    end.
Proof.
  unfold try_except_Exception, Fallible.call_scrape_jobs, Fallible.for_rows, Fallible.results,
    Fallible.handled, Fallible.print, Fallible.print_stderr, sys_exit, error_object.
  unfold mbind at 1 2 3, M_bind at 1 2 3. unfold lift at 1.
  destruct (scrape_jobs a) as [jobs|e].
  - cbn [start stdout stderr calls app]. rewrite for_each_listings.
    unfold mbind, outcome_bind.
    destruct (Fallible.listings str_raises (Fallible.rows jobs)) as [ds|e].
    + cbn [app]. destruct (Fallible.raises_after jobs) as [e|].
      * cbn [lift]. destruct (isinstance_Exception e); [|done].
        unfold M_bind. cbn [stdout stderr calls String.append].
        by destruct (stderr_write _) as [[n e']|].
      * cbn [mret M_ret stdout stderr calls String.append].
        destruct (stdout_write _) as [[n e]|]; [|done].
        destruct (isinstance_Exception e); [|done].
        unfold M_bind. cbn [stdout stderr calls String.append].
        by destruct (stderr_write _) as [[n' e']|].
    + destruct (isinstance_Exception e); [|done].
      unfold M_bind. cbn [stdout stderr calls String.append].
      by destruct (stderr_write _) as [[n e']|].
  - cbn [start stdout stderr calls app]. destruct (isinstance_Exception e); [|done].
    unfold M_bind. cbn [stdout stderr calls String.append].
    by destruct (stderr_write _) as [[n e']|].
Qed.

(** What a run does, case by case. *)
Lemma fallible_run_spec (argv : list pystr) :
  Fallible.run int str_raises scrape_jobs stdout_write stderr_write argv =
  match argv !! 1%nat with
  | None => (Uncaught (Exc IndexError (u "list index out of range")), start)
  | Some st =>
      match (match argv !! 3%nat with Some s => int s | None => Returns 24%Z end) with
      | Raises e => (Uncaught e, start)
      | Returns h =>
          let a := ScrapeArgs [u "indeed"] st (default (u "United States") (argv !! 2%nat))
                              50 h (u "USA") in
          match scrape_jobs a with
          | Raises e => Fallible.handled stderr_write EmptyString a e
          | Returns jobs =>
              match Fallible.results str_raises jobs with
              | Raises e => Fallible.handled stderr_write EmptyString a e
              | Returns ds =>
                  match stdout_write (dumps (JList ds) ++ char newline) with
                  | None => (Exited 0, World (dumps (JList ds) ++ char newline) EmptyString [a])
                  | Some (n, e) =>
                      Fallible.handled stderr_write
                        (first_chars n (dumps (JList ds) ++ char newline)) a e
                  end
              end
          end
      end
  end.
Proof.
  unfold Fallible.run, Fallible.script.
  destruct argv as [|prog [|st [|loc [|hs rest]]]]; try reflexivity.
  all: cbn [lookup list_lookup default id length Nat.ltb Nat.leb index].
  all: rewrite !bind_ret.
  3: rewrite bind_lift; destruct (int hs) as [h|e]; [|done].
  all: apply try_block_after_call.
Qed.

(** The calls of a run: none, or the one the arguments lead to. *)
Lemma fallible_run_of_call (argv : list pystr) (a : scrape_args) :
  a ∈ calls (Fallible.run int str_raises scrape_jobs stdout_write stderr_write argv).2 →
  Fallible.run int str_raises scrape_jobs stdout_write stderr_write argv =
  match scrape_jobs a with
  | Raises e => Fallible.handled stderr_write EmptyString a e
  | Returns jobs =>
      match Fallible.results str_raises jobs with
      | Raises e => Fallible.handled stderr_write EmptyString a e
      | Returns ds =>
          match stdout_write (dumps (JList ds) ++ char newline) with
          | None => (Exited 0, World (dumps (JList ds) ++ char newline) EmptyString [a])
          | Some (n, e) =>
              Fallible.handled stderr_write (first_chars n (dumps (JList ds) ++ char newline)) a e
          end
      end
  end.
Proof.
  rewrite fallible_run_spec.
  destruct (argv !! 1%nat) as [st|]; [|by intros ?%elem_of_nil].
  destruct (match argv !! 3%nat with Some s => int s | None => Returns 24%Z end)
    as [h|e]; [|by intros ?%elem_of_nil].
  cbn zeta. set (a0 := ScrapeArgs _ _ _ _ _ _). intros Ha.
  assert (a = a0) as ->; [|done].
  revert Ha. unfold Fallible.handled.
  repeat (match goal with |- context [match ?x with _ => _ end] => destruct x end);
    cbn; by intros ?%list_elem_of_singleton.
Qed.

End Failures.

(** The script of the first part is the fallible one when nothing fails. *)
Lemma listings_when_no_cell_raises (jobs : list (gmap pystr pyval)) :
  Fallible.listings no_cell jobs = Returns (listing <$> jobs).
Proof. induction jobs as [|job jobs IH]; [done|]. cbn [Fallible.listings]. by rewrite IH. Qed.

Lemma run_when_nothing_fails
    (int : pystr → outcome Z) (scrape_jobs : scrape_args → outcome DataFrame)
    (argv : list pystr) :
  Fallible.run int no_cell (iterated scrape_jobs) whole whole argv = run int scrape_jobs argv.
Proof.
  rewrite fallible_run_spec, run_spec.
  destruct (argv !! 1%nat) as [st|]; [|done].
  destruct (match argv !! 3%nat with Some s => int s | None => Returns 24%Z end)
    as [h|e]; [|done].
  cbn zeta. unfold iterated, Fallible.handled, Fallible.results, whole.
  destruct (scrape_jobs _) as [jobs|e]; [|done].
  cbn [Fallible.rows Fallible.raises_after]. by rewrite listings_when_no_cell_raises.
Qed.

(** ** The dicts the fallible loop builds are those of [listing] *)


Lemma fallible_listing_returns (str_raises : pyval → option exception)
    (job : gmap pystr pyval) :
  (∀ col, In col columns → str_raises (get job col (VStr [])) = None) →
  Fallible.listing str_raises job = Returns (listing job).
Proof.
  intros Hcells.
  unfold Fallible.listing, Fallible.str, listing, mbind, outcome_bind, mret, outcome_ret.
  rewrite (Hcells (u "title")) by (cbn; auto 10).
  rewrite (Hcells (u "company_name")) by (cbn; auto 10).
  rewrite (Hcells (u "city")) by (cbn; auto 10).
  rewrite (Hcells (u "state")) by (cbn; auto 10).
  rewrite (Hcells (u "date_posted")) by (cbn; auto 10).
  rewrite (Hcells (u "job_url")) by (cbn; auto 10).
  by rewrite (Hcells (u "description")) by (cbn; auto 10).
Qed.


Lemma fallible_listings_returns (str_raises : pyval → option exception)
    (jobs : list (gmap pystr pyval)) :
  (∀ job col, In job jobs → In col columns → str_raises (get job col (VStr [])) = None) →
  Fallible.listings str_raises jobs = Returns (listing <$> jobs).
Proof.
  induction jobs as [|job jobs IH]; intros Hcells; [done|]. cbn [Fallible.listings].
  rewrite (fallible_listing_returns str_raises job) by (intros col; apply Hcells; by left).
  rewrite IH by (intros job' col Hjob; apply Hcells; by right). done.
Qed.


Section Outcomes.

Variable int : pystr → outcome Z.
Variable str_raises : pyval → option exception.
Variable scrape_jobs : scrape_args → outcome Fallible.table.
Variable stdout_write : string → option (nat * exception).
Variable stderr_write : string → option (nat * exception).

(** C1, as amended: when the call to the external capability succeeds,
    the table handed back is iterated to its end, [str()] raises on no
    cell the script reads, and the write to standard output takes the whole
    text, the run exits with status 0 and the text on standard output is a
    JSON array: the serialisation of a list with one element per returned
    row, each element a dict whose keys are exactly title, company, city,
    state, date_posted, job_url and description, every value a string. *)
Theorem stdout_is_array_when_nothing_fails
    (argv : list pystr) (a : scrape_args) (jobs : Fallible.table) :
  a ∈ calls (Fallible.run int str_raises scrape_jobs stdout_write stderr_write argv).2 →
  scrape_jobs a = Returns jobs →
  Fallible.raises_after jobs = None →
  (∀ job col, In job (Fallible.rows jobs) → In col columns →
              str_raises (get job col (VStr [])) = None) →
  stdout_write (dumps (JList (listing <$> Fallible.rows jobs)) ++ char newline) = None →
  ∃ elems : list json,
    (Fallible.run int str_raises scrape_jobs stdout_write stderr_write argv).1 = Exited 0
    ∧ stdout (Fallible.run int str_raises scrape_jobs stdout_write stderr_write argv).2
      = dumps (JList elems) ++ char newline
    ∧ is_json_array
        (stdout (Fallible.run int str_raises scrape_jobs stdout_write stderr_write argv).2)
      = true
    ∧ length elems = length (Fallible.rows jobs)
    ∧ Forall (λ v, is_listing v = true) elems.
Proof.
  intros Ha Hjobs Hiter Hcells Hwrite.
  rewrite (fallible_run_of_call int str_raises scrape_jobs stdout_write stderr_write argv a Ha).
  rewrite Hjobs. unfold Fallible.results.
  rewrite (fallible_listings_returns str_raises _ Hcells), Hiter.
  unfold mbind, outcome_bind. rewrite Hwrite.
  exists (listing <$> Fallible.rows jobs). cbn [fst snd stdout]. split_and!; [done|done|..].
  - apply dumps_list_is_json_array.
  - by rewrite length_fmap.
  - apply Forall_fmap, Forall_forall. intros job _. apply listing_is_listing.
Qed.

End Outcomes.

Lemma stdout_is_array_when_nothing_fails_witness :
  short_call ∈ calls (Fallible.run int_ascii over_digit_limit
                        (iterated (returning [engineer_row])) whole whole short_argv).2
  ∧ iterated (returning [engineer_row]) short_call
    = Returns (Fallible.Table [engineer_row] None)
  ∧ ∃ elems : list json,
      (Fallible.run int_ascii over_digit_limit
         (iterated (returning [engineer_row])) whole whole short_argv).1 = Exited 0
      ∧ stdout (Fallible.run int_ascii over_digit_limit
                  (iterated (returning [engineer_row])) whole whole short_argv).2
        = dumps (JList elems) ++ char newline
      ∧ is_json_array
          (stdout (Fallible.run int_ascii over_digit_limit
                     (iterated (returning [engineer_row])) whole whole short_argv).2)
        = true
      ∧ length elems = length [engineer_row]
      ∧ Forall (λ v, is_listing v = true) elems.
Proof.
  split; [call_made|]. split; [reflexivity|].
  apply (stdout_is_array_when_nothing_fails int_ascii over_digit_limit
           (iterated (returning [engineer_row])) whole whole short_argv short_call
           (Fallible.Table [engineer_row] None)).
  - call_made.
  - reflexivity.
  - reflexivity.
  - intros job col [<-|[]] Hcol. cbn in Hcol.
    repeat (destruct Hcol as [<-|Hcol]; [vm_compute; reflexivity|]). destruct Hcol.
  - reflexivity.
Defined.

(** C1 as stated does not hold: the external call succeeds and hands back
    one row whose title is an integer of 4301 digits; [str()] refuses it
    inside the guarded block, so nothing is printed to standard output, the
    error object goes to standard error and the exit status is 1. *)
Lemma conversion_failure_prints_no_array :
  short_call ∈ calls (Fallible.run int_ascii over_digit_limit
                        (iterated (returning [huge_title_row])) whole whole short_argv).2
  ∧ iterated (returning [huge_title_row]) short_call
    = Returns (Fallible.Table [huge_title_row] None)
  ∧ Fallible.run int_ascii over_digit_limit
      (iterated (returning [huge_title_row])) whole whole short_argv
    = (Exited 1,
       World EmptyString
         (lit "{'error': 'Exceeds the limit (4300 digits) for integer string conversion; use sys.set_int_max_str_digits() to increase the limit'}"
          ++ char newline)
         [short_call])
  ∧ ¬ (∃ elems : list json,
         stdout (Fallible.run int_ascii over_digit_limit
                   (iterated (returning [huge_title_row])) whole whole short_argv).2
         = dumps (JList elems) ++ char newline).
Proof.
  assert (Fallible.run int_ascii over_digit_limit
            (iterated (returning [huge_title_row])) whole whole short_argv
          = (Exited 1,
             World EmptyString
               (lit "{'error': 'Exceeds the limit (4300 digits) for integer string conversion; use sys.set_int_max_str_digits() to increase the limit'}"
                ++ char newline)
               [short_call])) as Hrun by (vm_compute; reflexivity).
  rewrite Hrun. cbn [fst snd calls stdout]. split_and!.
  - apply list_elem_of_here.
  - reflexivity.
  - reflexivity.
  - intros [elems Helems]. cbn [dumps] in Helems. discriminate Helems.
Qed.



Section Fields.

Variable int : pystr → outcome Z.
Variable str_raises : pyval → option exception.
Variable scrape_jobs : scrape_args → outcome Fallible.table.
Variable stdout_write : string → option (nat * exception).
Variable stderr_write : string → option (nat * exception).


End Fields.



Section Streams.

Variable int : pystr → outcome Z.
Variable str_raises : pyval → option exception.
Variable scrape_jobs : scrape_args → outcome Fallible.table.
Variable stdout_write : string → option (nat * exception).
Variable stderr_write : string → option (nat * exception).


End Streams.


(** What the first part of the theorem leaves room for: the reader closes
    the pipe after 40 characters of the array; the failed write is an
    [Exception], so the handler reports it, and the run exits with status 1
    with the beginning of the array on standard output and the error object
    on standard error. *)
Example closed_pipe_leaves_part_of_the_array :
  Fallible.run int_ascii no_cell (iterated (returning [engineer_row]))
    closed_pipe whole short_argv
  = (Exited 1,
     World (lit "[{'title': 'Engineer', 'company': 'Acme'")
       (lit "{'error': '[Errno 32] Broken pipe'}" ++ char newline)
       [short_call]).
Proof. vm_compute. reflexivity. Qed.

Section Status.

Variable int : pystr → outcome Z.
Variable str_raises : pyval → option exception.
Variable scrape_jobs : scrape_args → outcome Fallible.table.
Variable stdout_write : string → option (nat * exception).
Variable stderr_write : string → option (nat * exception).

(** X10: as long as no write fails, the stream the script wrote tells the
    exit status: a run that left anything on standard output exits with
    status 0, a run in which the script wrote anything on standard error
    exits with status 1, and the script never writes both.  The converses
    do not hold: status 1 is also that of a run that ends in an uncaught
    [Exception], where the script has written nothing. *)
Theorem written_stream_tells_the_exit_status (argv : list pystr) :
  let r := Fallible.run int str_raises scrape_jobs stdout_write stderr_write argv in
  (∀ text, stdout_write text = None) → (∀ text, stderr_write text = None) →
  (stdout r.2 ≠ EmptyString → exit_status r.1 = Some 0%Z)
  ∧ (stderr r.2 ≠ EmptyString → exit_status r.1 = Some 1%Z)
  ∧ (stdout r.2 = EmptyString ∨ stderr r.2 = EmptyString).
Proof.
  cbn zeta. intros Hout Herr. rewrite fallible_run_spec.
  destruct (argv !! 1%nat) as [st|]; [|by split_and!; [| |left]].
  destruct (match argv !! 3%nat with Some s => int s | None => Returns 24%Z end)
    as [h|e]; [|by split_and!; [| |left]].
  cbn zeta. unfold Fallible.handled.
  destruct (scrape_jobs _) as [jobs|e].
  - destruct (Fallible.results str_raises jobs) as [ds|e].
    + rewrite Hout. by split_and!; [| |right].
    + rewrite Herr. by destruct (isinstance_Exception e); split_and!; [| |left| | |left].
  - rewrite Herr. by destruct (isinstance_Exception e); split_and!; [| |left| | |left].
Qed.

End Status.

Lemma written_stream_tells_the_exit_status_witness :
  (∀ text, whole text = None)
  ∧ (let r := Fallible.run int_ascii no_cell (iterated (raising rate_limited)) whole whole short_argv in
     stderr r.2 ≠ EmptyString
     ∧ (stdout r.2 ≠ EmptyString → exit_status r.1 = Some 0%Z)
     ∧ (stderr r.2 ≠ EmptyString → exit_status r.1 = Some 1%Z)
     ∧ (stdout r.2 = EmptyString ∨ stderr r.2 = EmptyString)).
Proof.
  split; [reflexivity|]. cbv zeta. split; [vm_compute; discriminate|].
  apply (written_stream_tells_the_exit_status int_ascii no_cell (iterated (raising rate_limited))
           whole whole short_argv); reflexivity.
Defined.

(** The exit status alone does not tell the stream: on a third argument
    that is not a number the process exits with status 1 too, and the script
    has written no error object. *)
Example status_1_without_error_object :
  exit_status
    (Fallible.run int_ascii no_cell (iterated (returning [engineer_row])) whole whole abc_argv).1
  = Some 1%Z
  ∧ (Fallible.run int_ascii no_cell (iterated (returning [engineer_row])) whole whole abc_argv).2
    = start.
Proof. split; vm_compute; reflexivity. Qed.
